(** * python-github-webhooks: the request handler [index] of webhooks.py

    A shallow embedding of the single WSGI entry point of webhooks.py and
    the properties of its request pipeline.

    Conventions of the embedding.
    - The handler is Python 2 code ([hmac.new(str(secret), ...)]).  Text
      ([str], [unicode], request bytes, paths) is [string], one character
      for one byte.  Python 2's implicit conversions between [str] and
      [unicode] are not modelled, but for the two places where the handler
      fails on Python 3 as well: the comparison of the signature raises on
      a character that is not ASCII, and [json.dumps] raises on output of
      the hooks that it cannot encode.
    - A Python expression that may raise evaluates to an [Outcome]:
      [Val v], [Raise e], or - for Flask's [abort(n)] - [Abort n].
    - Everything the handler does to the outside (log records, the call to
      api.github.com, the temporary file, child processes) is appended to a
      chronological trace of [Event]s.  The outside world answers through
      the oracles of a [World]; an oracle that depends on the state of the
      machine or of the network receives the trace so far, so its answer
      may change from one call to the next.
    - Library code that webhooks.py only calls is written out where it is
      short (str.split, os.path.join and basename, hmac with sha1, address
      in network) and is a field of [World] otherwise (json, the parsers
      of ipaddress, str() of a non-string).
    - [Popen] may raise OSError: a file that is a regular file and may be
      executed can still fail to start.  The rest of the operating system
      and the network are taken to be operational: [requests.get],
      [mkstemp], [open]/[write] and [remove] return, and so does
      [communicate] for a child that was started. *)

From Stdlib Require Import List String Ascii ZArith Bool Lia.
From Stdlib Require Import Sorted Permutation.
From Stdlib Require DecimalString.
Import ListNotations.

Set Warnings "-register-all".

Local Open Scope Z_scope.
Local Open Scope list_scope.
Local Open Scope string_scope.

(** ** Python text primitives used by the handler *)

(** [s.split(sep)] for a one-character separator: never empty, and an
    empty field between two adjacent separators. *)
Fixpoint split (sep : ascii) (s : string) : list string :=
  match s with
  | EmptyString => [EmptyString]
  | String c s' =>
      if Ascii.eqb c sep then EmptyString :: split sep s'
      else match split sep s' with
           | [] => [String c EmptyString]
           | x :: xs => String c x :: xs
           end
  end.

Definition startswith (p s : string) : bool := String.prefix p s.

(** Text that [str(u)] can encode: every character is below 128. *)
Fixpoint is_ascii (s : string) : bool :=
  match s with
  | EmptyString => true
  | String c s' => (N_of_ascii c <? 128)%N && is_ascii s'
  end.

Definition endswith_slash (s : string) : bool :=
  match List.last (list_ascii_of_string s) "a"%char with
  | "/"%char => true
  | _ => false
  end.

(** [os.path.join(a, b)] of posixpath: an absolute [b] discards [a]. *)
Definition join (a b : string) : string :=
  if startswith "/" b then b
  else if (a =? "") || endswith_slash a then a ++ b
  else a ++ "/" ++ b.

(** [os.path.basename(p)]: what follows the last slash. *)
Definition basename (p : string) : string :=
  List.last (split "/" p) "".

(** [str(n)] / ['{}'.format(n)] of an integer. *)
Definition str_of_int (n : Z) : string :=
  DecimalString.NilZero.string_of_int (Z.to_int n).

(** ** JSON values, as [json.loads] builds them

    The members of an object are those of a Python dict: a key occurs
    once. *)

Inductive json : Type :=
| JNull
| JBool (b : bool)
| JInt (n : Z)
| JFloat (repr : string)
| JStr (s : string)
| JArray (items : list json)
| JObject (members : list (string * json)).

(** Lookup in an association list on text keys (a Python dict). *)
Fixpoint assoc {A : Type} (k : string) (d : list (string * A)) : option A :=
  match d with
  | [] => None
  | (k', v) :: d' => if k' =? k then Some v else assoc k d'
  end.

(** [d[k] = v] on an insertion-ordered dict: an existing key keeps its
    place and takes the new value, a new key goes last. *)
Fixpoint dict_set {A : Type} (k : string) (v : A) (d : list (string * A))
  : list (string * A) :=
  match d with
  | [] => [(k, v)]
  | (k', v') :: d' =>
      if k' =? k then (k, v) :: d' else (k', v') :: dict_set k v d'
  end.

(** ** Exceptions and outcomes *)

Inductive exn : Type :=
| AttributeError
| IndexError
| KeyError (key : string)
| OSError
| TypeError
| UnicodeDecodeError
| UnicodeEncodeError
| ValueError.

Inductive Outcome (A : Type) : Type :=
| Val (a : A)
| Abort (code : Z)
| Raise (e : exn).

Arguments Val {A} a.
Arguments Abort {A} code.
Arguments Raise {A} e.

Definition obind {A B : Type} (o : Outcome A) (f : A -> Outcome B)
  : Outcome B :=
  match o with
  | Val a => f a
  | Abort n => Abort n
  | Raise e => Raise e
  end.

(** [v[k]] for a text key [k]. *)
Definition getitem (v : json) (k : string) : Outcome json :=
  match v with
  | JObject d =>
      match assoc k d with
      | Some x => Val x
      | None => Raise (KeyError k)
      end
  | _ => Raise TypeError
  end.

(** [v.split('/')]: only text has the method. *)
Definition json_split (v : json) (sep : ascii) : Outcome (list string) :=
  match v with
  | JStr s => Val (split sep s)
  | _ => Raise AttributeError
  end.

(** [l[i]] on a list. *)
Definition subscript {A : Type} (l : list A) (i : nat) : Outcome A :=
  match nth_error l i with
  | Some x => Val x
  | None => Raise IndexError
  end.

(** ** ipaddress: parsed addresses and networks *)

Record IPAddress : Type := { ip_version : Z; ip_int : Z }.

Record IPNetwork : Type :=
  { net_version : Z; network_address : Z; prefixlen : Z }.

Definition max_prefixlen (version : Z) : Z :=
  if (version =? 4)%Z then 32 else 128.

Definition hostmask (n : IPNetwork) : Z :=
  Z.ones (max_prefixlen (net_version n) - prefixlen n).

Definition broadcast_address (n : IPNetwork) : Z :=
  Z.lor (network_address n) (hostmask n).

(** [addr in net]: never across versions, else between the network
    address and the broadcast address. *)
Definition ip_in (addr : IPAddress) (net : IPNetwork) : bool :=
  (net_version net =? ip_version addr)%Z
  && (network_address net <=? ip_int addr)%Z
  && (ip_int addr <=? broadcast_address net)%Z.

(** ** hashlib.sha1 and hmac, on byte strings *)

Definition bytes_of_string (s : string) : list Z :=
  map (fun c => Z.of_N (N_of_ascii c)) (list_ascii_of_string s).

Definition w32 (x : Z) : Z := Z.land x 4294967295.

Definition rotl (n x : Z) : Z :=
  w32 (Z.lor (Z.shiftl x n) (Z.shiftr x (32 - n))).

(** Big-endian bytes of [x], [n] of them. *)
Fixpoint be_bytes (n : nat) (x : Z) : list Z :=
  match n with
  | O => []
  | S n' => (be_bytes n' (Z.shiftr x 8) ++ [Z.land x 255])%list
  end.

Fixpoint be_words (bs : list Z) : list Z :=
  match bs with
  | a :: b :: c :: d :: rest =>
      (((a * 256 + b) * 256 + c) * 256 + d) :: be_words rest
  | _ => []
  end.

Definition sha1_pad (msg : list Z) : list Z :=
  let len := Z.of_nat (List.length msg) in
  (msg ++ [128] ++ repeat 0 (Z.to_nat ((55 - len) mod 64))
       ++ be_bytes 8 (8 * len))%list.

Fixpoint blocks (fuel : nat) (ws : list Z) : list (list Z) :=
  match fuel, ws with
  | S fuel', _ :: _ => firstn 16 ws :: blocks fuel' (skipn 16 ws)
  | _, _ => []
  end.

(** The message schedule, latest word first. *)
Fixpoint schedule (n : nat) (rev_ws : list Z) : list Z :=
  match n with
  | O => rev_ws
  | S n' =>
      let x := Z.lxor (Z.lxor (nth 2 rev_ws 0) (nth 7 rev_ws 0))
                      (Z.lxor (nth 13 rev_ws 0) (nth 15 rev_ws 0)) in
      schedule n' (rotl 1 x :: rev_ws)
  end.

Definition sha1_state : Type := (Z * Z * Z * Z * Z)%type.

Definition sha1_round (st : sha1_state) (iw : Z * Z) : sha1_state :=
  let '(a, b, c, d, e) := st in
  let '(i, wi) := iw in
  let '(f, k) :=
    if (i <? 20)%Z then
      (Z.lor (Z.land b c) (Z.land (Z.lxor b 4294967295) d), 1518500249)
    else if (i <? 40)%Z then (Z.lxor (Z.lxor b c) d, 1859775393)
    else if (i <? 60)%Z then
      (Z.lor (Z.lor (Z.land b c) (Z.land b d)) (Z.land c d), 2400959708)
    else (Z.lxor (Z.lxor b c) d, 3395469782) in
  (w32 (rotl 5 a + f + e + k + wi), a, rotl 30 b, c, d).

Definition sha1_block (st : sha1_state) (block : list Z) : sha1_state :=
  let ws := rev (schedule 64 (rev block)) in
  let '(a, b, c, d, e) :=
    fold_left sha1_round (combine (map Z.of_nat (seq 0 80)) ws) st in
  let '(h0, h1, h2, h3, h4) := st in
  (w32 (h0 + a), w32 (h1 + b), w32 (h2 + c), w32 (h3 + d), w32 (h4 + e)).

(** [sha1(msg).digest()] *)
Definition sha1 (msg : list Z) : list Z :=
  let ws := be_words (sha1_pad msg) in
  let '(h0, h1, h2, h3, h4) :=
    fold_left sha1_block (blocks (List.length ws) ws)
      (1732584193, 4023233417, 2562383102, 271733878, 3285377520) in
  (be_bytes 4 h0 ++ be_bytes 4 h1 ++ be_bytes 4 h2 ++ be_bytes 4 h3
     ++ be_bytes 4 h4)%list.

Definition hex_digit (n : Z) : ascii :=
  if (n <? 10)%Z then ascii_of_N (Z.to_N (48 + n))
  else ascii_of_N (Z.to_N (87 + n)).

Fixpoint hex (bs : list Z) : string :=
  match bs with
  | [] => EmptyString
  | b :: bs' =>
      String (hex_digit (Z.shiftr b 4))
        (String (hex_digit (Z.land b 15)) (hex bs'))
  end.

(** [hmac.new(key, msg, sha1).digest()] *)
Definition hmac_sha1 (key msg : list Z) : list Z :=
  let key := if (64 <? Z.of_nat (List.length key))%Z then sha1 key else key in
  let key := (key ++ repeat 0 (64 - List.length key))%list in
  let ipad := map (Z.lxor 54) key in
  let opad := map (Z.lxor 92) key in
  sha1 (opad ++ sha1 (ipad ++ msg))%list.

(** [hmac.new(key, msg=msg, digestmod=sha1).hexdigest()] *)
Definition hmac_sha1_hexdigest (key msg : string) : string :=
  hex (hmac_sha1 (bytes_of_string key) (bytes_of_string msg)).

(** ** The outside world *)

(** What [Popen(...).communicate()] leaves behind: [proc.returncode] and
    the two captured streams. *)
Record Proc : Type :=
  { returncode : Z; stdout : string; stderr : string }.

Inductive Level : Type := ERROR | WARNING | INFO.

Inductive Event : Type :=
| Log (level : Level) (msg : string)
| LogException (msg : string) (e : exn)
| HttpGet (url : string)
| Mkstemp (path : string)
| WriteFile (path : string) (content : string)
| Popen (argv : list string) (proc : Proc)
| PopenError (argv : list string)
| Remove (path : string).

Definition Trace : Type := list Event.

Record World : Type :=
  { (* libraries; [None] is the library's ValueError; [dumps] is what
       [json.dumps] returns, which it does on all that [loads] builds *)
    ip_address : string -> option IPAddress;
    ip_network : string -> option IPNetwork;
    loads : string -> option json;
    dumps : json -> string;
    py_str : json -> string;
    (* whether [json.dumps] can encode the bytes a child wrote: on
       Python 2 they must be UTF-8, on Python 3 it takes no [bytes] *)
    encodable : string -> bool;
    (* deployment: normpath(abspath(dirname(__file__))) *)
    app_path : string;
    (* network, file system, processes *)
    github_meta_hooks : Trace -> list string;
    isfile : Trace -> string -> bool;
    access_X_OK : Trace -> string -> bool;
    mkstemp : Trace -> string;
    (* [Popen(argv, ...)] and [communicate()]; [None] is the OSError of a
       file that cannot be started *)
    communicate : Trace -> list string -> option Proc }.

(** [application.config]: a key may be absent. *)
Record Config : Type :=
  { GITHUB_IPS_ONLY : option bool;
    ENFORCE_SECRET : option string;
    RETURN_SCRIPTS_INFO : option bool }.

(** [config.get(key, default)]. *)
Definition config_get {A : Type} (entry : option A) (default : A) : A :=
  match entry with
  | Some v => v
  | None => default
  end.

(** Flask's [request]; [headers req k] is [request.headers.get(k)]. *)
Record Request : Type :=
  { method : string;
    remote_addr : string;
    headers : string -> option string;
    data : string }.

(** ** The handler monad: an outcome and the trace so far *)

Definition M (A : Type) : Type := Trace -> Outcome A * Trace.

Definition ret {A : Type} (a : A) : M A := fun h => (Val a, h).

Definition bind {A B : Type} (m : M A) (f : A -> M B) : M B :=
  fun h =>
    match m h with
    | (Val a, h') => f a h'
    | (Abort code, h') => (Abort code, h')
    | (Raise e, h') => (Raise e, h')
    end.

Definition abort {A : Type} (code : Z) : M A := fun h => (Abort code, h).

Definition lift {A : Type} (o : Outcome A) : M A := fun h => (o, h).

Definition emit (e : Event) : M unit := fun h => (Val tt, (h ++ [e])%list).

Definition ask {A : Type} (oracle : Trace -> A) : M A :=
  fun h => (Val (oracle h), h).

Declare Scope handler_scope.
Delimit Scope handler_scope with handler.

Notation "x <- m ;; k" := (bind m (fun x => k))
  (at level 61, m at next level, right associativity) : handler_scope.
Notation "m ;; k" := (bind m (fun _ => k))
  (at level 61, right associativity) : handler_scope.

Definition must {A : Type} (o : option A) (e : exn) : Outcome A :=
  match o with
  | Some a => Val a
  | None => Raise e
  end.

(** The derived routing triple. [name] and [event] are whatever JSON the
    payload holds; [branch] is a piece of a split string. *)
Record Meta : Type :=
  { meta_name : json; meta_branch : string; meta_event : json }.

Definition newline : string := String (ascii_of_nat 10) EmptyString.

(** ['{} : {} \n{}'.format(s, proc.returncode, stderr)], the message of
    [log.error] for a failed hook. *)
Definition failure_message (s : string) (p : Proc) : string :=
  s ++ " : " ++ str_of_int (returncode p) ++ " " ++ newline ++ stderr p.

(** [sorted(d.items())] on text keys, by insertion. *)
Fixpoint insert_by_key {A : Type} (kv : string * A)
  (l : list (string * A)) : list (string * A) :=
  match l with
  | [] => [kv]
  | kv' :: l' =>
      if String.leb (fst kv) (fst kv') then kv :: l
      else kv' :: insert_by_key kv l'
  end.

Fixpoint sort_keys {A : Type} (d : list (string * A)) : list (string * A) :=
  match d with
  | [] => []
  | kv :: d' => insert_by_key kv (sort_keys d')
  end.

(** The value under one basename in [ran], members in key order. *)
Definition proc_json (p : Proc) : json :=
  JObject [("returncode", JInt (returncode p));
           ("stderr", JStr (stderr p));
           ("stdout", JStr (stdout p))].

(** [ran] as [dumps(ran, sort_keys=True)] walks it; [dumps] itself writes
    members in the order it is given. *)
Definition ran_json (ran : list (string * Proc)) : json :=
  JObject (map (fun kv => (fst kv, proc_json (snd kv))) (sort_keys ran)).

(** ** webhooks.py *)

Section Handler.

Variable w : World.

Local Open Scope handler_scope.

(** [hooks = join(path, 'hooks')]. *)
Definition hooks : string := join (app_path w) "hooks".

(** A replacement field of [str.format]: text as it is, anything else
    through [str()]. *)
Definition format_field (v : json) : string :=
  match v with
  | JStr s => s
  | _ => py_str w v
  end.

(** "Only POST is implemented" *)
Definition only_post (req : Request) : M unit :=
  if negb (method req =? "POST") then
    emit (Log ERROR "Someone is performing GET over /") ;;
    abort 501
  else ret tt.

(** The [for valid_ip in whitelist: ... break / else: abort(403)] loop:
    [Val true] is the [break], [Val false] the [else] branch. *)
Fixpoint in_whitelist (src_ip : IPAddress) (whitelist : list string)
  : Outcome bool :=
  match whitelist with
  | [] => Val false
  | valid_ip :: rest =>
      obind (must (ip_network w valid_ip) ValueError) (fun net =>
        if ip_in src_ip net then Val true
        else in_whitelist src_ip rest)
  end.

(** "Allow Github IPs only" *)
Definition allow_github_ips (cfg : Config) (req : Request) : M unit :=
  if config_get (GITHUB_IPS_ONLY cfg) true then
    src_ip <- lift (must (ip_address w (remote_addr req)) ValueError) ;;
    emit (HttpGet "https://api.github.com/meta") ;;
    whitelist <- ask (github_meta_hooks w) ;;
    found <- lift (in_whitelist src_ip whitelist) ;;
    if found then ret tt else abort 403
  else ret tt.

(** "Enforce secret".  [str(signature)] raises on a character that is
    not ASCII, before anything is compared. *)
Definition enforce_secret (cfg : Config) (req : Request) : M unit :=
  let secret := config_get (ENFORCE_SECRET cfg) "" in
  if negb (secret =? "") then
    header <- lift (must (headers req "X-Hub-Signature") AttributeError) ;;
    match split "=" header with
    | [sha_name; signature] =>
        if negb (sha_name =? "sha1") then abort 501
        else
          let mac := hmac_sha1_hexdigest secret (data req) in
          if negb (is_ascii signature) then lift (Raise UnicodeEncodeError)
          else if negb (mac =? signature) then abort 403 else ret tt
    | _ => lift (Raise ValueError)
    end
  else ret tt.

(** The event type of the request: the first header, else the second,
    else the empty string. *)
Definition header_event (req : Request) : string :=
  match headers req "X-GitHub-Event" with
  | Some e => e
  | None => config_get (headers req "X-Gitlab-Event") ""
  end.

(** "Implement ping" *)
Definition implement_ping (req : Request) : M string :=
  let event := header_event req in
  (if event =? "ping" then emit (Log INFO "just a ping") else ret tt) ;;
  ret event.

(** The body of the [try]: [loads] and the three entries of [meta], in
    the order Python evaluates them. *)
Definition gather (req : Request) (event : string) : Outcome (json * Meta) :=
  obind (must (loads w (data req)) ValueError) (fun payload =>
  obind (obind (getitem payload "repository")
               (fun r => getitem r "name")) (fun name =>
  obind (obind (obind (getitem payload "ref")
                      (fun r => json_split r "/"))
               (fun parts => subscript parts 2)) (fun branch =>
  obind (if negb (event =? "") then Val (JStr event)
         else getitem payload "object_kind") (fun ev =>
  Val (payload,
       {| meta_name := name; meta_branch := branch; meta_event := ev |}))))).

(** "Gather data": [except Exception] logs and aborts with 400. *)
Definition gather_data (req : Request) (event : string) : M (json * Meta) :=
  match gather req event with
  | Val pm => ret pm
  | Abort code => abort code
  | Raise e => emit (LogException "invalid payload" e) ;; abort 400
  end.

(** "Possible hooks" *)
Definition candidate_scripts (meta : Meta) : list string :=
  let e := format_field (meta_event meta) in
  let n := format_field (meta_name meta) in
  let b := meta_branch meta in
  [ join hooks (e ++ "-" ++ n ++ "-" ++ b);
    join hooks (e ++ "-" ++ n);
    join hooks e;
    join hooks "all" ].

(** "Check permissions" *)
Definition check_permissions (candidates : list string) (h : Trace)
  : list string :=
  filter (fun s => isfile w h s && access_X_OK w h s) candidates.

(** One turn of "Run scripts": the child is started - or [Popen] raises -
    and runs to its end, its result goes under the script's basename, a
    failure is logged. *)
Definition run_script (tmpfile event s : string)
  (ran : list (string * Proc)) : M (list (string * Proc)) :=
  proc <- (fun h =>
             match communicate w h [s; tmpfile; event] with
             | Some p => (Val p, (h ++ [Popen [s; tmpfile; event] p])%list)
             | None =>
                 (Raise OSError, (h ++ [PopenError [s; tmpfile; event]])%list)
             end) ;;
  let ran := dict_set (basename s) proc ran in
  (if negb (returncode proc =? 0)%Z then
     emit (Log ERROR (failure_message s proc))
   else ret tt) ;;
  ret ran.

(** "Run scripts" *)
Fixpoint run_scripts (tmpfile event : string) (scripts : list string)
  (ran : list (string * Proc)) : M (list (string * Proc)) :=
  match scripts with
  | [] => ret ran
  | s :: rest =>
      ran <- run_script tmpfile event s ran ;;
      run_scripts tmpfile event rest ran
  end.

(** [dumps(ran, sort_keys=True, indent=4)]: json has to decode what the
    children wrote, and raises when it cannot. *)
Definition dumps_ran (ran : list (string * Proc)) : Outcome string :=
  if forallb (fun kv => encodable w (stdout (snd kv))
                        && encodable w (stderr (snd kv))) ran
  then Val (dumps w (ran_json ran))
  else Raise UnicodeDecodeError.

(** "Give info back": the end of [index], once the temporary file is
    removed. *)
Definition give_info (cfg : Config) (ran : list (string * Proc))
  : M string :=
  if config_get (RETURN_SCRIPTS_INFO cfg) false then
    output <- lift (dumps_ran ran) ;;
    emit (Log INFO output) ;;
    ret output
  else ret "".

(** From "Possible hooks" to the end of [index].  Nothing catches what
    [Popen] raises: [remove] is then never reached. *)
Definition run_hooks (cfg : Config) (payload : json) (meta : Meta)
  (event : string) : M string :=
  let candidates := candidate_scripts meta in
  scripts <- ask (check_permissions candidates) ;;
  match scripts with
  | [] =>
      emit (Log WARNING ("nothing found for " ++ nth 0 candidates "")) ;;
      ret ""
  | _ =>
      tmpfile <- (fun h =>
                    let p := mkstemp w h in
                    (Val p, (h ++ [Mkstemp p])%list)) ;;
      emit (WriteFile tmpfile (dumps w payload)) ;;
      ran <- run_scripts tmpfile event scripts [] ;;
      emit (Remove tmpfile) ;;
      give_info cfg ran
  end.

(** Main WSGI application entry. *)
Definition index (cfg : Config) (req : Request) : M string :=
  only_post req ;;
  allow_github_ips cfg req ;;
  enforce_secret cfg req ;;
  event <- implement_ping req ;;
  pm <- gather_data req event ;;
  run_hooks cfg (fst pm) (snd pm) event.

(** [@application.route('/', methods=['GET', 'POST'])]: what Flask does
    with a request before [index] is called.  GET and POST reach the view,
    and HEAD with GET; Flask answers OPTIONS itself, and any other method
    with 405. *)
Definition route_methods : list string := ["GET"; "POST"].

Definition application (cfg : Config) (req : Request) : M string :=
  if existsb (String.eqb (method req)) ("HEAD" :: route_methods) then
    index cfg req
  else if method req =? "OPTIONS" then ret ""
  else abort 405.

(** *** Stages of [index], named for the statements below *)

(** The checks of a request: method, source address, signature. *)
Definition validate (cfg : Config) (req : Request) : M unit :=
  only_post req ;;
  allow_github_ips cfg req ;;
  enforce_secret cfg req.

(** [index] up to and including "Gather data": the event type of the
    headers, the payload and its meta. *)
Definition accept (cfg : Config) (req : Request)
  : M (string * (json * Meta)) :=
  validate cfg req ;;
  event <- implement_ping req ;;
  pm <- gather_data req event ;;
  ret (event, pm).

(** [index] from "Gather data" on, for the event type [event]. *)
Definition dispatch (cfg : Config) (req : Request) (event : string)
  : M string :=
  pm <- gather_data req event ;;
  run_hooks cfg (fst pm) (snd pm) event.

(** [index] from "Implement ping" on. *)
Definition after_validation (cfg : Config) (req : Request) : M string :=
  event <- implement_ping req ;;
  dispatch cfg req event.

(** [index] from "Enforce secret" on. *)
Definition after_allowlist (cfg : Config) (req : Request) : M string :=
  enforce_secret cfg req ;;
  after_validation cfg req.

End Handler.

(** ** Observations on outcomes and traces *)

(** The status of the HTTP response: a returned body goes out with 200,
    [abort(n)] with [n], and Flask answers an exception that nobody
    caught with 500. *)
Definition http_status (o : Outcome string) : Z :=
  match o with
  | Val _ => 200
  | Abort code => code
  | Raise _ => 500
  end.

(** What a request asks of the file system and of the process table; a
    child that could not be started was asked for all the same. *)
Inductive Syscall : Type :=
| SysMkstemp (path : string)
| SysWrite (path : string) (content : string)
| SysExec (argv : list string)
| SysRemove (path : string).

Fixpoint syscalls (t : Trace) : list Syscall :=
  match t with
  | [] => []
  | Mkstemp p :: t' => SysMkstemp p :: syscalls t'
  | WriteFile p c :: t' => SysWrite p c :: syscalls t'
  | Popen argv _ :: t' => SysExec argv :: syscalls t'
  | PopenError argv :: t' => SysExec argv :: syscalls t'
  | Remove p :: t' => SysRemove p :: syscalls t'
  | _ :: t' => syscalls t'
  end.

(** The child processes of a trace that ran, with what they left
    behind. *)
Fixpoint popens (t : Trace) : list (list string * Proc) :=
  match t with
  | [] => []
  | Popen argv p :: t' => (argv, p) :: popens t'
  | _ :: t' => popens t'
  end.

Definition script_of (argv : list string) : string := nth 0 argv "".

(** What one turn of the loop of [index] adds to the trace. *)
Definition script_events (run : list string * Proc) : Trace :=
  Popen (fst run) (snd run)
    :: (if (returncode (snd run) =? 0)%Z then []
        else [Log ERROR (failure_message (script_of (fst run)) (snd run))]).

(** [ran] after the given runs, starting from [ran0]. *)
Definition ran_after (runs : list (list string * Proc))
  (ran0 : list (string * Proc)) : list (string * Proc) :=
  fold_left (fun ran run => dict_set (basename (script_of (fst run)))
                              (snd run) ran) runs ran0.


Definition members (v : json) : list (string * json) :=
  match v with
  | JObject d => d
  | _ => []
  end.

(** A member of a JSON object; nothing for any other value. *)
Definition json_get (v : json) (k : string) : option json :=
  assoc k (members v).

Fixpoint has_char (c : ascii) (s : string) : bool :=
  match s with
  | EmptyString => false
  | String c' s' => Ascii.eqb c' c || has_char c s'
  end.

(** The reading of the event argument under which every hook would be
    given the event derived for the request: all children of the request
    run as [<script> <tmpfile> <meta event>]. *)
Definition hooks_get_derived_event (w : World) (cfg : Config)
  (req : Request) (h0 : Trace) : Prop :=
  forall event payload meta h1 out t,
    accept w cfg req h0 = (Val (event, (payload, meta)), h1) ->
    index w cfg req h0 = (out, (h0 ++ t)%list) ->
    forall argv proc, In (argv, proc) (popens t) ->
      exists s, argv = [s; mkstemp w h1; format_field w (meta_event meta)].

(** ** An example deployment

    A machine with a few hooks, two of which fail, behind the allowlist of
    two IPv4 networks. *)

Definition decimal (s : string) : option Z :=
  match s with
  | EmptyString => None
  | _ => option_map Z.of_uint (DecimalString.NilEmpty.uint_of_string s)
  end.

Definition ipv4_int (s : string) : option Z :=
  match map decimal (split "." s) with
  | [Some a; Some b; Some c; Some d] =>
      if forallb (fun x => (x <=? 255)%Z) [a; b; c; d]
      then Some (((a * 256 + b) * 256 + c) * 256 + d)
      else None
  | _ => None
  end.

Definition ipv4_address (s : string) : option IPAddress :=
  option_map (fun n => {| ip_version := 4; ip_int := n |}) (ipv4_int s).

(** A network in CIDR notation; host bits must be clear. *)
Definition ipv4_network (s : string) : option IPNetwork :=
  match split "/" s with
  | [addr; len] =>
      match ipv4_int addr, decimal len with
      | Some a, Some l =>
          let net := {| net_version := 4; network_address := a;
                        prefixlen := l |} in
          if (l <=? 32)%Z && (Z.land a (hostmask net) =? 0)%Z
          then Some net else None
      | _, _ => None
      end
  | _ => None
  end.

Definition quoted (s : string) : string :=
  String (ascii_of_nat 34) (s ++ String (ascii_of_nat 34) EmptyString).

(** A serializer for JSON whose text needs no escaping. *)
Fixpoint json_text (v : json) : string :=
  match v with
  | JNull => "null"
  | JBool true => "true"
  | JBool false => "false"
  | JInt n => str_of_int n
  | JFloat r => r
  | JStr s => quoted s
  | JArray items =>
      "[" ++ (fix go (l : list json) : string :=
                match l with
                | [] => ""
                | [x] => json_text x
                | x :: l' => json_text x ++ ", " ++ go l'
                end) items ++ "]"
  | JObject d =>
      "{" ++ (fix go (l : list (string * json)) : string :=
                match l with
                | [] => ""
                | [(k, x)] => quoted k ++ ": " ++ json_text x
                | (k, x) :: l' =>
                    quoted k ++ ": " ++ json_text x ++ ", " ++ go l'
                end) d ++ "}"
  end.

Definition push_payload : json :=
  JObject [("ref", JStr "refs/heads/main");
           ("repository", JObject [("name", JStr "repo")])].

Definition gitlab_payload : json :=
  JObject [("object_kind", JStr "push");
           ("ref", JStr "refs/heads/main");
           ("repository", JObject [("name", JStr "repo")])].

Definition short_ref_payload : json :=
  JObject [("ref", JStr "refs/heads");
           ("repository", JObject [("name", JStr "repo")])].

Definition nameless_payload : json :=
  JObject [("ref", JStr "refs/heads/main");
           ("repository", JObject [])].

(** The bodies this deployment is sent; any other text is not JSON. *)
Definition example_loads (s : string) : option json :=
  find (fun v => json_text v =? s)
    [push_payload; gitlab_payload; short_ref_payload; nameless_payload].

(** The regular files of the machine that its user may execute. *)
Definition example_executables : list string :=
  ["/srv/webhooks/hooks/push-repo-main";
   "/srv/webhooks/hooks/push";
   "/srv/webhooks/hooks/all";
   "/srv/webhooks/hooks/deploy/all";
   "/bin/echo"].

(** The hooks that exit with 1; everything else exits with 0. *)
Definition example_failing : list string :=
  ["/srv/webhooks/hooks/push-repo-main";
   "/srv/webhooks/hooks/deploy/all"].

Definition example_world : World :=
  {| ip_address := ipv4_address;
     ip_network := ipv4_network;
     loads := example_loads;
     dumps := json_text;
     py_str := json_text;
     encodable := is_ascii;
     app_path := "/srv/webhooks";
     github_meta_hooks := fun _ => ["192.30.252.0/22"; "185.199.108.0/22"];
     isfile := fun _ p => existsb (String.eqb p) example_executables;
     access_X_OK := fun _ p => existsb (String.eqb p) example_executables;
     mkstemp := fun h => "/tmp/tmp" ++ str_of_int (Z.of_nat (List.length h));
     communicate := fun _ argv =>
       if existsb (String.eqb (script_of argv)) example_failing
       then Some {| returncode := 1; stdout := ""; stderr := "boom" |}
       else Some {| returncode := 0; stdout := "ok"; stderr := "" |} |}.

Definition header_table (l : list (string * string))
  : string -> option string :=
  fun k => assoc k l.

Definition default_config : Config :=
  {| GITHUB_IPS_ONLY := None;
     ENFORCE_SECRET := None;
     RETURN_SCRIPTS_INFO := None |}.

Definition secret_config : Config :=
  {| GITHUB_IPS_ONLY := None;
     ENFORCE_SECRET := Some "s3cret";
     RETURN_SCRIPTS_INFO := None |}.

Definition info_config : Config :=
  {| GITHUB_IPS_ONLY := Some false;
     ENFORCE_SECRET := None;
     RETURN_SCRIPTS_INFO := Some true |}.

(** A push from a GitHub address. *)
Definition push_request : Request :=
  {| method := "POST";
     remote_addr := "192.30.252.17";
     headers := header_table [("X-GitHub-Event", "push")];
     data := json_text push_payload |}.

(** The same push from elsewhere. *)
Definition outsider_request : Request :=
  {| method := "POST";
     remote_addr := "10.0.0.1";
     headers := header_table [("X-GitHub-Event", "push")];
     data := json_text push_payload |}.

(** A push with a signature that is not that of its body. *)
Definition forged_request : Request :=
  {| method := "POST";
     remote_addr := "192.30.252.17";
     headers := header_table
       [("X-GitHub-Event", "push");
        ("X-Hub-Signature",
         "sha1=0000000000000000000000000000000000000000")];
     data := json_text push_payload |}.

(** A push without an event header, told by its [object_kind]. *)
Definition gitlab_request : Request :=
  {| method := "POST";
     remote_addr := "192.30.252.17";
     headers := header_table [];
     data := json_text gitlab_payload |}.


Definition garbage_request : Request :=
  {| method := "POST";
     remote_addr := "192.30.252.17";
     headers := header_table [("X-GitHub-Event", "push")];
     data := "not json" |}.

Definition short_ref_request : Request :=
  {| method := "POST";
     remote_addr := "192.30.252.17";
     headers := header_table [("X-GitHub-Event", "push")];
     data := json_text short_ref_payload |}.

(** A push whose signature is that of its body under the secret of
    [secret_config]. *)
Definition signed_request : Request :=
  {| method := "POST";
     remote_addr := "192.30.252.17";
     headers := header_table
       [("X-GitHub-Event", "push");
        ("X-Hub-Signature",
         "sha1=b63283b4d0f323414d758a55e6231c6ac0b563ab")];
     data := json_text push_payload |}.

(** An event type that is an absolute path. *)
Definition absolute_event_request : Request :=
  {| method := "POST";
     remote_addr := "192.30.252.17";
     headers := header_table [("X-GitHub-Event", "/bin/echo")];
     data := json_text push_payload |}.


Definition nameless_request : Request :=
  {| method := "POST";
     remote_addr := "192.30.252.17";
     headers := header_table [("X-GitHub-Event", "push")];
     data := json_text nameless_payload |}.

(** A request that is no POST. *)
Definition get_request : Request :=
  {| method := "GET";
     remote_addr := "192.30.252.17";
     headers := header_table [];
     data := "" |}.

(** A push that names its sender by a host name. *)
Definition named_sender_request : Request :=
  {| method := "POST";
     remote_addr := "localhost";
     headers := header_table [("X-GitHub-Event", "push")];
     data := json_text push_payload |}.

(** A push whose signature header has no digest part. *)
Definition bare_signature_request : Request :=
  {| method := "POST";
     remote_addr := "192.30.252.17";
     headers := header_table
       [("X-GitHub-Event", "push"); ("X-Hub-Signature", "sha1")];
     data := json_text push_payload |}.

(** A push that carries the event headers of both platforms. *)
Definition two_platform_request : Request :=
  {| method := "POST";
     remote_addr := "192.30.252.17";
     headers := header_table
       [("X-GitHub-Event", "push"); ("X-Gitlab-Event", "Push Hook")];
     data := json_text push_payload |}.


(** The example deployment when api.github.com lists a network and then
    something that is none. *)
Definition stale_list_world : World :=
  {| ip_address := ip_address example_world;
     ip_network := ip_network example_world;
     loads := loads example_world;
     dumps := dumps example_world;
     py_str := py_str example_world;
     encodable := encodable example_world;
     app_path := app_path example_world;
     github_meta_hooks := fun _ => ["192.30.252.0/22"; "hooks.example.org"];
     isfile := isfile example_world;
     access_X_OK := access_X_OK example_world;
     mkstemp := mkstemp example_world;
     communicate := communicate example_world |}.



(** A push whose signature has a character that is not ASCII. *)
Definition latin1_signature_request : Request :=
  {| method := "POST";
     remote_addr := "192.30.252.17";
     headers := header_table
       [("X-GitHub-Event", "push");
        ("X-Hub-Signature", "sha1=" ++ String (ascii_of_nat 233) "")];
     data := json_text push_payload |}.

(** A push sent with PUT. *)
Definition put_request : Request :=
  {| method := "PUT";
     remote_addr := "192.30.252.17";
     headers := header_table [("X-GitHub-Event", "push")];
     data := json_text push_payload |}.

(** ** Vocabulary of the statements *)

(** A computation that touches neither the file system nor the process
    table: it only appends log records and requests to the network. *)
Definition quiet {A : Type} (m : M A) : Prop :=
  forall h o h', m h = (o, h') ->
    exists t, h' = (h ++ t)%list /\ syscalls t = [] /\ popens t = [].

(** The trace once "Implement ping" is over. *)
Definition pinged (req : Request) (h : Trace) : Trace :=
  if header_event req =? "ping"
  then (h ++ [Log INFO "just a ping"])%list else h.


(** [repository.name] of a payload, if it is there. *)
Definition repository_name (payload : json) : option json :=
  match json_get payload "repository" with
  | Some r => json_get r "name"
  | None => None
  end.


(** Every one of [scripts] can be started, whenever [Popen] is asked to:
    none of them makes it raise. *)
Definition launched (w : World) (tmpfile event : string)
  (scripts : list string) : Prop :=
  forall s h, In s scripts -> communicate w h [s; tmpfile; event] <> None.

(** What the children of [scripts] write is text that [json.dumps] can
    encode. *)
Definition encodable_output (w : World) (tmpfile event : string)
  (scripts : list string) : Prop :=
  forall s h p,
    In s scripts -> communicate w h [s; tmpfile; event] = Some p ->
    encodable w (stdout p) = true /\ encodable w (stderr p) = true.

(** [dumps(ran)] has what it needs: the results are not asked for, or
    what the children of [scripts] write is text. *)
Definition results_encodable (w : World) (cfg : Config)
  (tmpfile event : string) (scripts : list string) : Prop :=
  config_get (RETURN_SCRIPTS_INFO cfg) false = true ->
  encodable_output w tmpfile event scripts.

(** A run as [Popen] and [communicate] gave it at some moment. *)
Definition answer_of (w : World) (run : list string * Proc) : Prop :=
  exists h, communicate w h (fst run) = Some (snd run).

(** What "Check permissions" to the end of [index] comes to, for the
    selected [scripts], in the outcome [o] and the events [t] of a
    request.  It never aborts, and
    - with no script selected nothing is asked of the system;
    - when every script starts, the system is asked for the temporary
      file, the write, the children in order and the removal, and the
      outcome is a body unless the results are asked for and json cannot
      encode what the children wrote;
    - when a script does not start, the ones before it ran, the ones
      after it are not tried, the file is not removed, and OSError
      goes uncaught. *)
Definition hooks_outcome (w : World) (cfg : Config)
  (content tmpfile event : string) (scripts : list string)
  (o : Outcome string) (t : Trace) : Prop :=
  (forall code, o <> Abort code)
  /\ ((scripts = [] /\ o = Val "" /\ syscalls t = [] /\ popens t = [])
      \/ (scripts <> []
          /\ map fst (popens t) = map (fun s => [s; tmpfile; event]) scripts
          /\ syscalls t
             = (SysMkstemp tmpfile :: SysWrite tmpfile content
                  :: map (fun s => SysExec [s; tmpfile; event]) scripts
                  ++ [SysRemove tmpfile])%list
          /\ (results_encodable w cfg tmpfile event scripts ->
              exists body, o = Val body))
      \/ (exists done s rest,
             scripts = (done ++ s :: rest)%list
             /\ map fst (popens t)
                = map (fun s => [s; tmpfile; event]) done
             /\ syscalls t
                = (SysMkstemp tmpfile :: SysWrite tmpfile content
                     :: map (fun s => SysExec [s; tmpfile; event])
                          (done ++ [s]))%list
             /\ o = Raise OSError
             /\ exists h, communicate w h [s; tmpfile; event] = None)).

(** A path that lies below the directory [dir]. *)
Definition inside (dir path : string) : bool :=
  startswith (dir ++ "/") path.

(** * Properties *)

(** ** The library models, against the libraries *)

Example split_empty : split "/" "" = [""].
Proof. reflexivity. Qed.

Example split_adjacent : split "/" "a//b" = ["a"; ""; "b"].
Proof. reflexivity. Qed.

Example join_relative : join "/srv/hooks" "push" = "/srv/hooks/push".
Proof. reflexivity. Qed.

Example join_absolute : join "/srv/hooks" "/bin/ls" = "/bin/ls".
Proof. reflexivity. Qed.

Example join_empty : join "/srv/hooks" "" = "/srv/hooks/".
Proof. reflexivity. Qed.

Example basename_path : basename "/srv/hooks/push-repo" = "push-repo".
Proof. reflexivity. Qed.

Example basename_trailing_slash : basename "/srv/hooks/" = "".
Proof. reflexivity. Qed.

Example str_of_int_negative : str_of_int (-9) = "-9".
Proof. reflexivity. Qed.

(** FIPS 180 and RFC 2202 test vectors. *)
Example sha1_abc :
  hex (sha1 (bytes_of_string "abc"))
  = "a9993e364706816aba3e25717850c26c9cd0d89d".
Proof. vm_compute. reflexivity. Qed.

Example sha1_two_blocks :
  hex (sha1 (bytes_of_string
               "abcdbcdecdefdefgefghfghighijhijkijkljklmklmnlmnomnopnopq"))
  = "84983e441c3bd26ebaae4aa1f95129e5e54670f1".
Proof. vm_compute. reflexivity. Qed.

Example hmac_sha1_rfc2202_case2 :
  hmac_sha1_hexdigest "Jefe" "what do ya want for nothing?"
  = "effcdf6ae5eb2fa2d27416d5f184df9c259a7c79".
Proof. vm_compute. reflexivity. Qed.

(** The broadcast address of a network whose host bits are clear. *)
Lemma broadcast_address_eq (net : IPNetwork) :
  let k := max_prefixlen (net_version net) - prefixlen net in
  0 <= k -> Z.land (network_address net) (hostmask net) = 0 ->
  broadcast_address net = network_address net + 2 ^ k - 1.
Proof.
  intros k Hk Hland. unfold broadcast_address.
  pose proof (Z.add_lor_land (network_address net) (hostmask net)) as H.
  rewrite Hland in H. unfold hostmask in *. fold k in H |- *.
  rewrite Z.ones_equiv in *. lia.
Qed.

(** [addr in net] is agreement on the first [prefixlen] bits: membership
    in the CIDR range. *)
Lemma ip_in_prefix (addr : IPAddress) (net : IPNetwork) :
  let k := max_prefixlen (net_version net) - prefixlen net in
  0 <= k -> Z.land (network_address net) (hostmask net) = 0 ->
  ip_in addr net = true <->
  net_version net = ip_version addr
  /\ Z.shiftr (ip_int addr) k = Z.shiftr (network_address net) k.
Proof.
  intros k Hk Hland. unfold ip_in.
  rewrite (broadcast_address_eq net Hk Hland). fold k.
  rewrite !andb_true_iff, Z.eqb_eq, !Z.leb_le, !Z.shiftr_div_pow2
    by exact Hk.
  assert (0 < 2 ^ k) as Hpos by (apply Z.pow_pos_nonneg; lia).
  assert (network_address net mod 2 ^ k = 0) as Hmod.
  { unfold hostmask in Hland. fold k in Hland.
    rewrite Z.land_ones in Hland by exact Hk. exact Hland. }
  pose proof (Z.div_mod (network_address net) (2 ^ k)) as Hb.
  pose proof (Z.div_mod (ip_int addr) (2 ^ k)) as Ha.
  pose proof (Z.mod_pos_bound (ip_int addr) (2 ^ k) Hpos) as Hr.
  split.
  - intros [[Hv Hlo] Hhi]. split; [exact Hv|]. nia.
  - intros [Hv Hq]. split; [split; [exact Hv|]|]; nia.
Qed.

Example ip_in_github :
  option_map (fun a => existsb (ip_in a)
                         (flat_map (fun s => match ipv4_network s with
                                             | Some n => [n]
                                             | None => []
                                             end)
                            ["192.30.252.0/22"; "185.199.108.0/22"]))
    (ipv4_address "192.30.255.255")
  = Some true.
Proof. reflexivity. Qed.

(** ** Text *)

Lemma split_no_sep (c : ascii) (s : string) :
  has_char c s = false -> split c s = [s].
Proof.
  induction s as [|a s IH]; simpl; intros H; [reflexivity|].
  apply orb_false_iff in H. destruct H as [Ha Hs].
  rewrite Ha, (IH Hs). reflexivity.
Qed.

Lemma split_app_sep (c : ascii) (a b : string) :
  has_char c a = false ->
  split c (a ++ String c b) = a :: split c b.
Proof.
  induction a as [|x a IH]; simpl; intros H.
  - rewrite Ascii.eqb_refl. reflexivity.
  - apply orb_false_iff in H. destruct H as [Hx Ha].
    rewrite Hx, (IH Ha). reflexivity.
Qed.

Lemma split_pair (c : ascii) (a b : string) :
  has_char c a = false -> has_char c b = false ->
  split c (a ++ String c b) = [a; b].
Proof.
  intros Ha Hb. rewrite (split_app_sep _ _ _ Ha), (split_no_sep _ _ Hb).
  reflexivity.
Qed.

Lemma split_not_nil (c : ascii) (s : string) : split c s <> [].
Proof.
  destruct s as [|a s]; simpl; [discriminate|].
  destruct (Ascii.eqb a c); [discriminate|].
  destruct (split c s); discriminate.
Qed.

(** A hex digest is ASCII text: [str()] of it never raises. *)
Lemma be_bytes_range (n : nat) (x : Z) :
  Forall (fun b => 0 <= b < 256) (be_bytes n x).
Proof.
  revert x. induction n as [|n IH]; intros x; simpl; [constructor|].
  apply Forall_app. split; [apply IH|].
  constructor; [|constructor].
  change 255 with (Z.ones 8). rewrite Z.land_ones by lia.
  change (2 ^ 8) with 256. apply Z.mod_pos_bound. lia.
Qed.

Lemma sha1_range (msg : list Z) :
  Forall (fun b => 0 <= b < 256) (sha1 msg).
Proof.
  unfold sha1.
  destruct (fold_left sha1_block _ _) as [[[[a b] c] d] e].
  do 4 (apply Forall_app; split; [apply be_bytes_range|]).
  apply be_bytes_range.
Qed.

Lemma hex_digit_ascii (d : Z) :
  0 <= d < 16 -> (N_of_ascii (hex_digit d) <? 128)%N = true.
Proof.
  intros H.
  assert (d = 0 \/ d = 1 \/ d = 2 \/ d = 3 \/ d = 4 \/ d = 5 \/ d = 6
          \/ d = 7 \/ d = 8 \/ d = 9 \/ d = 10 \/ d = 11 \/ d = 12
          \/ d = 13 \/ d = 14 \/ d = 15) as E by lia.
  repeat (destruct E as [->|E]; [reflexivity|]). subst d. reflexivity.
Qed.

Lemma hex_ascii (bs : list Z) :
  Forall (fun b => 0 <= b < 256) bs -> is_ascii (hex bs) = true.
Proof.
  induction 1 as [|b bs Hb _ IH]; simpl; [reflexivity|].
  rewrite IH, !hex_digit_ascii; [reflexivity| |].
  - change 15 with (Z.ones 4). rewrite Z.land_ones by lia.
    change (2 ^ 4) with 16. apply Z.mod_pos_bound. lia.
  - rewrite Z.shiftr_div_pow2 by lia. change (2 ^ 4) with 16.
    split; [apply Z.div_pos; lia|apply Z.div_lt_upper_bound; lia].
Qed.

Lemma hmac_sha1_hexdigest_ascii (key msg : string) :
  is_ascii (hmac_sha1_hexdigest key msg) = true.
Proof.
  unfold hmac_sha1_hexdigest, hmac_sha1. apply hex_ascii, sha1_range.
Qed.

(** ** The monad *)

Lemma bind_Val {A B : Type} (m : M A) (f : A -> M B) (h h' : Trace) (a : A) :
  m h = (Val a, h') -> bind m f h = f a h'.
Proof. intros H. unfold bind. rewrite H. reflexivity. Qed.

Lemma bind_Abort {A B : Type} (m : M A) (f : A -> M B) (h h' : Trace)
  (code : Z) :
  m h = (Abort code, h') -> bind m f h = (Abort code, h').
Proof. intros H. unfold bind. rewrite H. reflexivity. Qed.

Lemma bind_Raise {A B : Type} (m : M A) (f : A -> M B) (h h' : Trace)
  (e : exn) :
  m h = (Raise e, h') -> bind m f h = (Raise e, h').
Proof. intros H. unfold bind. rewrite H. reflexivity. Qed.

Lemma bind_assoc {A B C : Type} (m : M A) (f : A -> M B) (g : B -> M C)
  (h : Trace) :
  bind (bind m f) g h = bind m (fun a => bind (f a) g) h.
Proof.
  unfold bind. destruct (m h) as [[a|code|e] h']; try reflexivity.
Qed.

Lemma obind_not_Abort {A B : Type} (o : Outcome A) (f : A -> Outcome B)
  (code : Z) :
  o <> Abort code -> (forall a, f a <> Abort code) ->
  obind o f <> Abort code.
Proof.
  intros Ho Hf. destruct o as [a|code'|e]; simpl.
  - apply Hf.
  - intros E. apply Ho. inversion E. reflexivity.
  - discriminate.
Qed.

Section Validation.

Variable w : World.
Variables (cfg : Config) (req : Request).

Lemma only_post_POST (h : Trace) :
  method req = "POST" -> only_post req h = (Val tt, h).
Proof. intros H. unfold only_post. rewrite H. reflexivity. Qed.

Lemma index_POST (h : Trace) :
  method req = "POST" ->
  index w cfg req h = bind (allow_github_ips w cfg req)
                        (fun _ => after_allowlist w cfg req) h.
Proof.
  intros H. unfold index.
  rewrite (bind_Val _ _ _ _ _ (only_post_POST h H)). reflexivity.
Qed.

(** The loop over the allowlist, on entries that all parse. *)
Lemma in_whitelist_parsed (src_ip : IPAddress) (whitelist : list string)
  (networks : list IPNetwork) :
  Forall2 (fun s n => ip_network w s = Some n) whitelist networks ->
  in_whitelist w src_ip whitelist = Val (existsb (ip_in src_ip) networks).
Proof.
  induction 1 as [|s n ss ns Hs _ IH]; simpl; [reflexivity|].
  rewrite Hs. simpl. destruct (ip_in src_ip n); simpl; [reflexivity|].
  exact IH.
Qed.

End Validation.

(** ** Validation of a request *)

Lemma enforce_secret_header (cfg : Config) (req : Request)
  (h : Trace) (secret sha_name signature : string) :
  ENFORCE_SECRET cfg = Some secret -> secret <> "" ->
  headers req "X-Hub-Signature" = Some (sha_name ++ "=" ++ signature) ->
  has_char "=" sha_name = false -> has_char "=" signature = false ->
  enforce_secret cfg req h =
    if negb (sha_name =? "sha1") then (Abort 501, h)
    else if negb (is_ascii signature) then (Raise UnicodeEncodeError, h)
    else if negb (hmac_sha1_hexdigest secret (data req) =? signature)
         then (Abort 403, h)
         else (Val tt, h).
Proof.
  intros Hcfg Hsecret Hheader Hname Hsig.
  unfold enforce_secret. rewrite Hcfg. unfold config_get.
  apply String.eqb_neq in Hsecret. rewrite Hsecret. simpl negb.
  unfold bind, lift. rewrite Hheader.
  change (sha_name ++ "=" ++ signature)
    with (sha_name ++ String "=" signature).
  cbn [must negb]. rewrite (split_pair _ _ _ Hname Hsig).
  destruct (negb (sha_name =? "sha1")); [reflexivity|].
  destruct (negb (is_ascii signature)); [reflexivity|].
  destruct (negb (hmac_sha1_hexdigest secret (data req) =? signature));
    reflexivity.
Qed.

(** C1. With a non-empty secret configured, a request that is past the
    method and allowlist checks and whose signature header reads
    [<algorithm>=<hexdigest>] is answered 501 when the algorithm is not
    sha1; otherwise the HMAC-SHA1 of the raw body under the secret is
    computed, and the request is answered 403 unless its hex digest is the
    digest of the header; when it is, [index] goes on with what follows
    validation.  The digest of the header is text of ASCII characters, as
    a hex digest is: a header whose digest part has another character is
    not compared at all - [index] raises, nothing catches it, and the
    answer is 500. *)
Theorem C1_secret_enforced (w : World) (cfg : Config) (req : Request)
  (h0 h1 : Trace) (secret sha_name signature : string) :
  method req = "POST" ->
  allow_github_ips w cfg req h0 = (Val tt, h1) ->
  ENFORCE_SECRET cfg = Some secret -> secret <> "" ->
  headers req "X-Hub-Signature" = Some (sha_name ++ "=" ++ signature) ->
  has_char "=" sha_name = false -> has_char "=" signature = false ->
  (sha_name <> "sha1" -> index w cfg req h0 = (Abort 501, h1))
  /\ (sha_name = "sha1" -> is_ascii signature = true ->
      signature <> hmac_sha1_hexdigest secret (data req) ->
      index w cfg req h0 = (Abort 403, h1))
  /\ (sha_name = "sha1" ->
      signature = hmac_sha1_hexdigest secret (data req) ->
      index w cfg req h0 = after_validation w cfg req h1)
  /\ (sha_name = "sha1" -> is_ascii signature = false ->
      (exists e, index w cfg req h0 = (Raise e, h1))
      /\ http_status (fst (index w cfg req h0)) = 500).
Proof.
  intros Hpost Hallow Hcfg Hsecret Hheader Hname Hsig.
  rewrite (index_POST w cfg req h0 Hpost).
  rewrite (bind_Val _ _ _ _ _ Hallow).
  unfold after_allowlist.
  pose proof (enforce_secret_header cfg req h1 secret sha_name signature
                Hcfg Hsecret Hheader Hname Hsig) as E.
  split; [|split; [|split]].
  - intros Hneq. apply String.eqb_neq in Hneq. rewrite Hneq in E.
    exact (bind_Abort _ _ _ _ _ E).
  - intros Heq Hascii Hmac. apply String.eqb_eq in Heq.
    rewrite Heq, Hascii in E.
    assert ((hmac_sha1_hexdigest secret (data req) =? signature) = false)
      as F
      by (apply String.eqb_neq; congruence).
    rewrite F in E. exact (bind_Abort _ _ _ _ _ E).
  - intros Heq Hmac. apply String.eqb_eq in Heq. rewrite Heq in E.
    assert (is_ascii signature = true) as Hascii
      by (rewrite Hmac; apply hmac_sha1_hexdigest_ascii).
    assert ((hmac_sha1_hexdigest secret (data req) =? signature) = true)
      as F
      by (apply String.eqb_eq; congruence).
    rewrite Hascii, F in E. exact (bind_Val _ _ _ _ _ E).
  - intros Heq Hascii. apply String.eqb_eq in Heq.
    rewrite Heq, Hascii in E.
    rewrite (bind_Raise _ _ _ _ _ E).
    split; [exists UnicodeEncodeError|]; reflexivity.
Qed.

(** A forged signature on the example deployment is answered 403. *)
Lemma C1_secret_enforced_witness :
  index example_world secret_config forged_request []
  = (Abort 403, [HttpGet "https://api.github.com/meta"]).
Proof.
  refine (proj1 (proj2 (C1_secret_enforced example_world secret_config
                          forged_request [] _ "s3cret" "sha1"
                          "0000000000000000000000000000000000000000"
                          _ _ _ _ _ _ _)) _ _ _).
  - reflexivity.
  - vm_compute. reflexivity.
  - reflexivity.
  - discriminate.
  - reflexivity.
  - reflexivity.
  - reflexivity.
  - reflexivity.
  - reflexivity.
  - vm_compute. discriminate.
Defined.

(** On the example deployment, a signature header [sha1=] followed by the
    one character of code 233 is answered with the 500 of an exception. *)
Example latin1_signature_raises :
  index example_world secret_config latin1_signature_request []
  = (Raise UnicodeEncodeError, [HttpGet "https://api.github.com/meta"]).
Proof. vm_compute. reflexivity. Qed.

(** C10. With a non-empty secret configured, a request that is past the
    method and allowlist checks and carries no signature header makes
    [index] raise AttributeError, which nothing catches: the outcome is no
    [abort] at all, so none of 403, 501 and 400. *)
Theorem C10_missing_signature_header (w : World) (cfg : Config)
  (req : Request) (h0 h1 : Trace) (secret : string) :
  method req = "POST" ->
  allow_github_ips w cfg req h0 = (Val tt, h1) ->
  ENFORCE_SECRET cfg = Some secret -> secret <> "" ->
  headers req "X-Hub-Signature" = None ->
  index w cfg req h0 = (Raise AttributeError, h1)
  /\ (forall code, fst (index w cfg req h0) <> Abort code)
  /\ http_status (fst (index w cfg req h0)) = 500.
Proof.
  intros Hpost Hallow Hcfg Hsecret Hheader.
  assert (index w cfg req h0 = (Raise AttributeError, h1)) as E.
  { rewrite (index_POST w cfg req h0 Hpost).
    rewrite (bind_Val _ _ _ _ _ Hallow).
    unfold after_allowlist. apply bind_Raise.
    unfold enforce_secret. rewrite Hcfg. unfold config_get.
    apply String.eqb_neq in Hsecret. rewrite Hsecret. simpl negb.
    unfold bind, lift. rewrite Hheader. reflexivity. }
  rewrite E. simpl. repeat split. intros code. discriminate.
Qed.

(** An unsigned push to a deployment with a secret. *)
Lemma C10_missing_signature_header_witness :
  index example_world secret_config push_request []
  = (Raise AttributeError, [HttpGet "https://api.github.com/meta"]).
Proof.
  refine (proj1 (C10_missing_signature_header example_world secret_config
                   push_request [] _ "s3cret" _ _ _ _ _)).
  - reflexivity.
  - vm_compute. reflexivity.
  - reflexivity.
  - discriminate.
  - reflexivity.
Defined.

Lemma allow_github_ips_parsed (w : World) (cfg : Config) (req : Request)
  (h : Trace) (src_ip : IPAddress) (networks : list IPNetwork) :
  GITHUB_IPS_ONLY cfg <> Some false ->
  ip_address w (remote_addr req) = Some src_ip ->
  Forall2 (fun s n => ip_network w s = Some n)
    (github_meta_hooks w
       (h ++ [HttpGet "https://api.github.com/meta"])%list)
    networks ->
  allow_github_ips w cfg req h
  = (if existsb (ip_in src_ip) networks then Val tt else Abort 403,
     (h ++ [HttpGet "https://api.github.com/meta"])%list).
Proof.
  intros Hon Hsrc Hnets.
  assert (config_get (GITHUB_IPS_ONLY cfg) true = true) as Hcfg.
  { destruct (GITHUB_IPS_ONLY cfg) as [[|]|]; simpl; congruence. }
  unfold allow_github_ips. rewrite Hcfg.
  unfold bind, lift, emit, ask. rewrite Hsrc. cbn [must].
  rewrite (in_whitelist_parsed w src_ip _ _ Hnets).
  destruct (existsb (ip_in src_ip) networks); reflexivity.
Qed.

(** C2. With the allowlist on - [GITHUB_IPS_ONLY] true or absent - a POST
    from an address, where the list fetched from api.github.com/meta is
    one of CIDR networks, is answered 403 when the address is in none of
    them, whatever its headers and body are; when it is in one of them,
    [index] goes on with the signature check. *)
Theorem C2_allowlist (w : World) (cfg : Config) (req : Request)
  (h0 : Trace) (src_ip : IPAddress) (networks : list IPNetwork) :
  method req = "POST" ->
  GITHUB_IPS_ONLY cfg <> Some false ->
  ip_address w (remote_addr req) = Some src_ip ->
  Forall2 (fun s n => ip_network w s = Some n)
    (github_meta_hooks w
       (h0 ++ [HttpGet "https://api.github.com/meta"])%list)
    networks ->
  (Forall (fun n => ip_in src_ip n = false) networks ->
   index w cfg req h0
   = (Abort 403, (h0 ++ [HttpGet "https://api.github.com/meta"])%list))
  /\ (Exists (fun n => ip_in src_ip n = true) networks ->
      index w cfg req h0
      = after_allowlist w cfg req
          (h0 ++ [HttpGet "https://api.github.com/meta"])%list).
Proof.
  intros Hpost Hon Hsrc Hnets.
  rewrite (index_POST w cfg req h0 Hpost).
  pose proof (allow_github_ips_parsed w cfg req h0 src_ip networks
                Hon Hsrc Hnets) as E.
  split; intros H.
  - assert (existsb (ip_in src_ip) networks = false) as F.
    { clear Hnets E. induction H as [|n ns Hn _ IH]; simpl; [reflexivity|].
      rewrite Hn. exact IH. }
    rewrite F in E. exact (bind_Abort _ _ _ _ _ E).
  - assert (existsb (ip_in src_ip) networks = true) as F.
    { apply existsb_exists. apply Exists_exists in H. exact H. }
    rewrite F in E. exact (bind_Val _ _ _ _ _ E).
Qed.

(** A push from 10.0.0.1 on the example deployment is answered 403. *)
Lemma C2_allowlist_witness :
  index example_world default_config outsider_request []
  = (Abort 403, [HttpGet "https://api.github.com/meta"]).
Proof.
  refine (proj1 (C2_allowlist example_world default_config outsider_request
                   [] {| ip_version := 4; ip_int := 167772161 |}
                   [ {| net_version := 4; network_address := 3223256064;
                        prefixlen := 22 |};
                     {| net_version := 4; network_address := 3116854272;
                        prefixlen := 22 |} ] _ _ _ _) _).
  - reflexivity.
  - discriminate.
  - reflexivity.
  - repeat constructor.
  - repeat constructor.
Defined.

(** ** The pipeline of [index] *)

Section Pipeline.

Variable w : World.
Variables (cfg : Config) (req : Request).

Lemma implement_ping_eq (h : Trace) :
  implement_ping req h = (Val (header_event req), pinged req h).
Proof.
  unfold implement_ping, pinged, bind.
  destruct (header_event req =? "ping"); reflexivity.
Qed.

Lemma index_validate (h : Trace) :
  index w cfg req h
  = bind (validate w cfg req) (fun _ => after_validation w cfg req) h.
Proof.
  unfold index, validate, after_validation, dispatch, bind.
  destruct (only_post req h) as [[u|code|e] h1]; try reflexivity.
  destruct (allow_github_ips w cfg req h1) as [[u'|code|e] h2];
    reflexivity.
Qed.

Lemma index_accept (h : Trace) :
  index w cfg req h
  = bind (accept w cfg req)
      (fun x => run_hooks w cfg (fst (snd x)) (snd (snd x)) (fst x)) h.
Proof.
  rewrite index_validate. unfold accept, after_validation, dispatch, bind.
  destruct (validate w cfg req h) as [[u|code|e] h1]; try reflexivity.
  destruct (implement_ping req h1) as [[event|code|e] h2]; try reflexivity.
  destruct (gather_data w req event h2) as [[pm|code|e] h3]; reflexivity.
Qed.

(** Past validation, [index] is [dispatch] on the event type of the
    headers, whatever that is. *)
Lemma index_validated (h0 h1 : Trace) :
  validate w cfg req h0 = (Val tt, h1) ->
  index w cfg req h0
  = dispatch w cfg req (header_event req) (pinged req h1).
Proof.
  intros H. rewrite index_validate, (bind_Val _ _ _ _ _ H).
  unfold after_validation.
  exact (bind_Val _ _ _ _ _ (implement_ping_eq h1)).
Qed.

Lemma gather_not_Abort (event : string) (code : Z) :
  gather w req event <> Abort code.
Proof.
  unfold gather.
  repeat (apply obind_not_Abort; [|intros ?]);
    unfold must, getitem, json_split, subscript;
    repeat match goal with
           | |- context [match ?x with _ => _ end] => destruct x
           end;
    discriminate.
Qed.

Lemma gather_data_Val (event : string) (pm : json * Meta) (h : Trace) :
  gather w req event = Val pm ->
  gather_data w req event h = (Val pm, h).
Proof. intros H. unfold gather_data. rewrite H. reflexivity. Qed.

Lemma gather_data_Raise (event : string) (e : exn) (h : Trace) :
  gather w req event = Raise e ->
  gather_data w req event h
  = (Abort 400, (h ++ [LogException "invalid payload" e])%list).
Proof. intros H. unfold gather_data. rewrite H. reflexivity. Qed.

(** A payload that cannot be gathered is answered 400, after the
    exception went to the log. *)
Lemma dispatch_Raise (event : string) (e : exn) (h : Trace) :
  gather w req event = Raise e ->
  dispatch w cfg req event h
  = (Abort 400, (h ++ [LogException "invalid payload" e])%list).
Proof.
  intros H. unfold dispatch.
  exact (bind_Abort _ _ _ _ _ (gather_data_Raise event e h H)).
Qed.


(** What it is for a request to be accepted. *)
Lemma accept_Val (h0 h1 : Trace) (event : string) (payload : json)
  (meta : Meta) :
  accept w cfg req h0 = (Val (event, (payload, meta)), h1) <->
  exists hv,
    validate w cfg req h0 = (Val tt, hv)
    /\ event = header_event req
    /\ gather w req event = Val (payload, meta)
    /\ h1 = pinged req hv.
Proof.
  unfold accept. split.
  - unfold bind at 1.
    destruct (validate w cfg req h0) as [[[]|code|e] hv]; try discriminate.
    rewrite (bind_Val _ _ _ _ _ (implement_ping_eq hv)).
    unfold bind, gather_data.
    destruct (gather w req (header_event req)) as [pm|code|e] eqn:G;
      simpl; try discriminate.
    intros H. inversion H; subst. exists hv. repeat split. exact G.
  - intros (hv & Hv & He & Hg & Hh). subst.
    rewrite (bind_Val _ _ _ _ _ Hv).
    rewrite (bind_Val _ _ _ _ _ (implement_ping_eq hv)).
    rewrite (bind_Val _ _ _ _ _ (gather_data_Val _ _ _ Hg)).
    reflexivity.
Qed.

Lemma index_accepted (h0 h1 : Trace) (event : string) (payload : json)
  (meta : Meta) :
  accept w cfg req h0 = (Val (event, (payload, meta)), h1) ->
  index w cfg req h0 = run_hooks w cfg payload meta event h1.
Proof.
  intros H. rewrite index_accept. exact (bind_Val _ _ _ _ _ H).
Qed.

End Pipeline.

(** ** Quiet computations *)

Lemma syscalls_app (t1 t2 : Trace) :
  syscalls (t1 ++ t2)%list = (syscalls t1 ++ syscalls t2)%list.
Proof.
  induction t1 as [|e t1 IH]; simpl; [reflexivity|].
  destruct e; simpl; rewrite IH; reflexivity.
Qed.

Lemma popens_app (t1 t2 : Trace) :
  popens (t1 ++ t2)%list = (popens t1 ++ popens t2)%list.
Proof.
  induction t1 as [|e t1 IH]; simpl; [reflexivity|].
  destruct e; simpl; rewrite IH; reflexivity.
Qed.

Lemma quiet_ret {A : Type} (a : A) : quiet (ret a).
Proof.
  intros h o h' H. inversion H; subst. exists [].
  rewrite app_nil_r. repeat split.
Qed.

Lemma quiet_abort {A : Type} (code : Z) : quiet (@abort A code).
Proof.
  intros h o h' H. inversion H; subst. exists [].
  rewrite app_nil_r. repeat split.
Qed.

Lemma quiet_lift {A : Type} (o : Outcome A) : quiet (lift o).
Proof.
  intros h o' h' H. inversion H; subst. exists [].
  rewrite app_nil_r. repeat split.
Qed.

Lemma quiet_ask {A : Type} (oracle : Trace -> A) : quiet (ask oracle).
Proof.
  intros h o' h' H. inversion H; subst. exists [].
  rewrite app_nil_r. repeat split.
Qed.

Lemma quiet_emit (e : Event) :
  syscalls [e] = [] -> quiet (emit e).
Proof.
  intros He h o h' H. inversion H; subst. exists [e].
  repeat split; [exact He|]. destruct e; simpl in *; congruence.
Qed.

Lemma quiet_bind {A B : Type} (m : M A) (f : A -> M B) :
  quiet m -> (forall a, quiet (f a)) -> quiet (bind m f).
Proof.
  intros Hm Hf h o h' H. unfold bind in H.
  destruct (m h) as [[a|code|e] h1] eqn:E.
  - destruct (Hm _ _ _ E) as (t1 & -> & S1 & P1).
    destruct (Hf a _ _ _ H) as (t2 & -> & S2 & P2).
    exists (t1 ++ t2)%list. rewrite app_assoc, syscalls_app, popens_app.
    rewrite S1, S2, P1, P2. repeat split.
  - inversion H; subst. exact (Hm _ _ _ E).
  - inversion H; subst. exact (Hm _ _ _ E).
Qed.

Lemma quiet_if {A : Type} (b : bool) (m1 m2 : M A) :
  quiet m1 -> quiet m2 -> quiet (if b then m1 else m2).
Proof. destruct b; trivial. Qed.

Ltac quiet_step :=
  first
    [ apply quiet_ret | apply quiet_abort | apply quiet_lift
    | apply quiet_ask | apply quiet_emit; reflexivity
    | apply quiet_if
    | apply quiet_bind; [|intros ?]
    | match goal with
      | |- quiet (match ?x with _ => _ end) => destruct x
      end ].

Lemma quiet_validate (w : World) (cfg : Config) (req : Request) :
  quiet (validate w cfg req).
Proof.
  unfold validate, only_post, allow_github_ips, enforce_secret.
  repeat quiet_step.
Qed.

Lemma quiet_accept (w : World) (cfg : Config) (req : Request) :
  quiet (accept w cfg req).
Proof.
  unfold accept, implement_ping, gather_data.
  apply quiet_bind; [apply quiet_validate|intros _].
  repeat quiet_step.
Qed.

(** ** Running the hooks *)

Lemma popens_script_events (run : list string * Proc) :
  popens (script_events run) = [run].
Proof.
  destruct run as [argv p]. unfold script_events. simpl.
  destruct (returncode p =? 0)%Z; reflexivity.
Qed.

Lemma syscalls_script_events (run : list string * Proc) :
  syscalls (script_events run) = [SysExec (fst run)].
Proof.
  destruct run as [argv p]. unfold script_events. simpl.
  destruct (returncode p =? 0)%Z; reflexivity.
Qed.

Lemma syscalls_loop (runs : list (list string * Proc)) :
  syscalls (flat_map script_events runs) = map SysExec (map fst runs).
Proof.
  induction runs as [|run runs IH]; [reflexivity|].
  cbn [flat_map map].
  rewrite syscalls_app, syscalls_script_events, IH. reflexivity.
Qed.

Section Hooks.

Variable w : World.

Lemma run_script_Some (tmpfile event s : string)
  (ran : list (string * Proc)) (h : Trace) (p : Proc) :
  communicate w h [s; tmpfile; event] = Some p ->
  run_script w tmpfile event s ran h
  = (Val (dict_set (basename s) p ran),
     (h ++ script_events ([s; tmpfile; event], p))%list).
Proof.
  intros C. unfold run_script, bind, emit, ret, script_events.
  rewrite C. simpl.
  destruct (returncode p =? 0)%Z; simpl; [reflexivity|].
  rewrite <- app_assoc. reflexivity.
Qed.

Lemma run_script_None (tmpfile event s : string)
  (ran : list (string * Proc)) (h : Trace) :
  communicate w h [s; tmpfile; event] = None ->
  run_script w tmpfile event s ran h
  = (Raise OSError, (h ++ [PopenError [s; tmpfile; event]])%list).
Proof. intros C. unfold run_script, bind. rewrite C. reflexivity. Qed.

(** The loop of [index].  The scripts run in order, each whatever the
    ones before it returned, until one does not start: that ends the
    loop with OSError.  The trace of the loop is that of its runs, and
    [ran] is built from their results. *)
Lemma run_scripts_cases (tmpfile event : string) (scripts : list string) :
  forall (ran : list (string * Proc)) (h : Trace),
  exists loop,
    loop = flat_map script_events (popens loop)
    /\ Forall (answer_of w) (popens loop)
    /\ ((run_scripts w tmpfile event scripts ran h
         = (Val (ran_after (popens loop) ran), (h ++ loop)%list)
         /\ map fst (popens loop)
            = map (fun s => [s; tmpfile; event]) scripts)
        \/ exists done s rest,
             scripts = (done ++ s :: rest)%list
             /\ map fst (popens loop)
                = map (fun s => [s; tmpfile; event]) done
             /\ communicate w (h ++ loop)%list [s; tmpfile; event] = None
             /\ run_scripts w tmpfile event scripts ran h
                = (Raise OSError,
                   (h ++ loop ++ [PopenError [s; tmpfile; event]])%list)).
Proof.
  induction scripts as [|s rest IH]; intros ran h.
  - exists []. simpl. rewrite app_nil_r.
    split; [reflexivity|]. split; [constructor|].
    left. split; reflexivity.
  - simpl run_scripts.
    destruct (communicate w h [s; tmpfile; event]) as [p|] eqn:C.
    + rewrite (bind_Val _ _ _ _ _ (run_script_Some tmpfile event s ran h p C)).
      set (run := ([s; tmpfile; event], p)).
      destruct (IH (dict_set (basename s) p ran)
                   (h ++ script_events run)%list)
        as (loop & Hloop & Hans & Hcase).
      exists (script_events run ++ loop)%list.
      rewrite popens_app, popens_script_events.
      split; [simpl; rewrite <- Hloop; reflexivity|].
      split; [constructor; [exists h; exact C|exact Hans]|].
      destruct Hcase as [[E Hargv]|(done & s' & rest' & Hs & Hargv & Hnone & E)].
      * left. rewrite E, <- app_assoc.
        split; [reflexivity|]. simpl. rewrite Hargv. reflexivity.
      * right. exists (s :: done), s', rest'.
        split; [rewrite Hs; reflexivity|].
        split; [simpl; rewrite Hargv; reflexivity|].
        rewrite app_assoc. split; [exact Hnone|].
        rewrite E, <- !app_assoc. reflexivity.
    + rewrite (bind_Raise _ _ _ _ _ (run_script_None tmpfile event s ran h C)).
      exists []. simpl. rewrite app_nil_r.
      split; [reflexivity|]. split; [constructor|].
      right. exists [], s, rest. repeat split. exact C.
Qed.

(** When every script starts, every script runs. *)
Lemma run_scripts_launched (tmpfile event : string) (scripts : list string)
  (ran : list (string * Proc)) (h : Trace) :
  launched w tmpfile event scripts ->
  exists loop,
    run_scripts w tmpfile event scripts ran h
    = (Val (ran_after (popens loop) ran), (h ++ loop)%list)
    /\ map fst (popens loop) = map (fun s => [s; tmpfile; event]) scripts
    /\ loop = flat_map script_events (popens loop)
    /\ Forall (answer_of w) (popens loop).
Proof.
  intros L.
  destruct (run_scripts_cases tmpfile event scripts ran h)
    as (loop & Hloop & Hans
        & [[E Hargv]|(done & s & rest & Hs & _ & Hnone & _)]).
  - exists loop. repeat split; assumption.
  - exfalso. apply (L s (h ++ loop)%list); [|exact Hnone].
    rewrite Hs. apply in_elt.
Qed.


Variable cfg : Config.

Lemma quiet_give_info (ran : list (string * Proc)) :
  quiet (give_info w cfg ran).
Proof. unfold give_info. repeat quiet_step. Qed.

Lemma give_info_not_Abort (ran : list (string * Proc)) (h : Trace)
  (code : Z) :
  fst (give_info w cfg ran h) <> Abort code.
Proof.
  unfold give_info, dumps_ran, bind, lift, emit, ret.
  destruct (config_get (RETURN_SCRIPTS_INFO cfg) false); [|discriminate].
  destruct (forallb _ ran); discriminate.
Qed.

Lemma give_info_off (ran : list (string * Proc)) (h : Trace) :
  config_get (RETURN_SCRIPTS_INFO cfg) false = false ->
  give_info w cfg ran h = (Val "", h).
Proof. intros H. unfold give_info. rewrite H. reflexivity. Qed.

Lemma give_info_Val (ran : list (string * Proc)) (h : Trace)
  (body : string) :
  config_get (RETURN_SCRIPTS_INFO cfg) false = true ->
  dumps_ran w ran = Val body ->
  give_info w cfg ran h = (Val body, (h ++ [Log INFO body])%list).
Proof.
  intros H D. unfold give_info, bind, lift. rewrite H, D. reflexivity.
Qed.



Lemma run_hooks_nothing (payload : json) (meta : Meta) (event : string)
  (h : Trace) :
  check_permissions w (candidate_scripts w meta) h = [] ->
  run_hooks w cfg payload meta event h
  = (Val "",
     (h ++ [Log WARNING
              ("nothing found for "
                 ++ nth 0 (candidate_scripts w meta) "")])%list).
Proof.
  intros H. unfold run_hooks.
  unfold bind at 1. unfold ask. rewrite H. reflexivity.
Qed.

Lemma run_hooks_unfold (payload : json) (meta : Meta) (event : string)
  (h : Trace) :
  let scripts := check_permissions w (candidate_scripts w meta) h in
  let tmpfile := mkstemp w h in
  scripts <> [] ->
  run_hooks w cfg payload meta event h
  = bind (run_scripts w tmpfile event scripts [])
      (fun ran => bind (emit (Remove tmpfile))
                    (fun _ => give_info w cfg ran))
      (h ++ [Mkstemp tmpfile; WriteFile tmpfile (dumps w payload)])%list.
Proof.
  intros scripts tmpfile Hsome.
  unfold run_hooks. unfold bind at 1. unfold ask.
  fold scripts. destruct scripts as [|s rest]; [congruence|].
  unfold bind at 1. fold tmpfile.
  unfold bind at 1. unfold emit at 1. rewrite <- app_assoc. reflexivity.
Qed.

(** [run_hooks] with a script selected: the temporary file, the loop, and
    then either the removal and the answer, or OSError. *)
Lemma run_hooks_cases (payload : json) (meta : Meta) (event : string)
  (h : Trace) :
  let scripts := check_permissions w (candidate_scripts w meta) h in
  let tmpfile := mkstemp w h in
  let start :=
    (h ++ [Mkstemp tmpfile; WriteFile tmpfile (dumps w payload)])%list in
  scripts <> [] ->
  exists loop,
    loop = flat_map script_events (popens loop)
    /\ Forall (answer_of w) (popens loop)
    /\ ((map fst (popens loop) = map (fun s => [s; tmpfile; event]) scripts
         /\ run_hooks w cfg payload meta event h
            = give_info w cfg (ran_after (popens loop) [])
                (start ++ loop ++ [Remove tmpfile])%list)
        \/ exists done s rest,
             scripts = (done ++ s :: rest)%list
             /\ map fst (popens loop)
                = map (fun s => [s; tmpfile; event]) done
             /\ communicate w (start ++ loop)%list [s; tmpfile; event] = None
             /\ run_hooks w cfg payload meta event h
                = (Raise OSError,
                   (start ++ loop ++ [PopenError [s; tmpfile; event]])%list)).
Proof.
  intros scripts tmpfile start Hsome.
  destruct (run_scripts_cases tmpfile event scripts [] start)
    as (loop & Hloop & Hans & Hcase).
  exists loop. split; [exact Hloop|]. split; [exact Hans|].
  pose proof (run_hooks_unfold payload meta event h Hsome) as R.
  fold scripts tmpfile start in R.
  destruct Hcase as [[E Hargv]|(done & s & rest & Hs & Hargv & Hnone & E)].
  - left. split; [exact Hargv|].
    rewrite R, (bind_Val _ _ _ _ _ E).
    unfold bind, emit. rewrite <- app_assoc. reflexivity.
  - right. exists done, s, rest.
    split; [exact Hs|]. split; [exact Hargv|]. split; [exact Hnone|].
    rewrite R. exact (bind_Raise _ _ _ _ _ E).
Qed.

End Hooks.

(** ** Dicts and their sorted view *)

Section Dicts.

Context {A : Type}.



Lemma In_dict_set (kv : string * A) (k : string) (v : A)
  (d : list (string * A)) :
  In kv (dict_set k v d) -> kv = (k, v) \/ In kv d.
Proof.
  induction d as [|[k0 v0] d IH]; simpl.
  - intros [H|[]]. now left.
  - destruct (k0 =? k); simpl.
    + intros [H|H]; [now left|now right; right].
    + intros [H|H]; [now right; left|].
      destruct (IH H) as [H'|H']; [now left|now right; right].
Qed.

Lemma insert_by_key_perm (kv : string * A) (l : list (string * A)) :
  Permutation (kv :: l) (insert_by_key kv l).
Proof.
  induction l as [|kv' l IH]; simpl; [apply Permutation_refl|].
  destruct (String.leb (fst kv) (fst kv')); [apply Permutation_refl|].
  apply perm_trans with (kv' :: kv :: l); [apply perm_swap|].
  apply perm_skip. exact IH.
Qed.

Lemma sort_keys_perm (d : list (string * A)) :
  Permutation d (sort_keys d).
Proof.
  induction d as [|kv d IH]; simpl; [apply perm_nil|].
  apply perm_trans with (kv :: sort_keys d); [now apply perm_skip|].
  apply insert_by_key_perm.
Qed.




End Dicts.

Lemma members_ran_json (ran : list (string * Proc)) :
  members (ran_json ran)
  = map (fun kv => (fst kv, proc_json (snd kv))) (sort_keys ran).
Proof. reflexivity. Qed.



Lemma proc_json_inj (p q : Proc) : proc_json p = proc_json q -> p = q.
Proof.
  destruct p, q. unfold proc_json. simpl. intros H.
  inversion H. reflexivity.
Qed.

Lemma ran_json_member_inv (ran : list (string * Proc)) (k : string)
  (p : Proc) :
  In (k, proc_json p) (members (ran_json ran)) -> In (k, p) ran.
Proof.
  rewrite members_ran_json. intros H.
  apply in_map_iff in H. destruct H as ([k' q] & E & H). simpl in E.
  apply pair_equal_spec in E. destruct E as [Ek Ej].
  apply proc_json_inj in Ej. subst k' q.
  exact (Permutation_in _ (Permutation_sym (sort_keys_perm ran)) H).
Qed.


Lemma In_ran_after (k : string) (p : Proc)
  (runs : list (list string * Proc)) :
  forall ran0,
    In (k, p) (ran_after runs ran0) ->
    In (k, p) ran0
    \/ exists run, In run runs
                   /\ k = basename (script_of (fst run)) /\ p = snd run.
Proof.
  induction runs as [|run runs IH]; intros ran0; simpl; [now left|].
  unfold ran_after in *. simpl. intros H.
  destruct (IH _ H) as [H'|(run' & Hin & Hk & Hp)].
  - destruct (In_dict_set _ _ _ _ H') as [E|E]; [|now left].
    inversion E; subst. right. exists run. repeat split. now left.
  - right. exists run'. repeat split; trivial. now right.
Qed.



(** ** The outcome of the hooks *)

Section Outcome.

Variable w : World.
Variable cfg : Config.

(** When json can encode what every selected script writes, it can encode
    [ran]. *)
Lemma dumps_ran_text (tmpfile event : string) (scripts : list string)
  (runs : list (list string * Proc)) :
  encodable_output w tmpfile event scripts ->
  map fst runs = map (fun s => [s; tmpfile; event]) scripts ->
  Forall (answer_of w) runs ->
  dumps_ran w (ran_after runs [])
  = Val (dumps w (ran_json (ran_after runs []))).
Proof.
  intros Henc Hargv Hans. unfold dumps_ran.
  assert (forallb (fun kv => encodable w (stdout (snd kv))
                             && encodable w (stderr (snd kv)))
            (ran_after runs []) = true) as ->; [|reflexivity].
  apply forallb_forall. intros [k p] Hin. simpl.
  destruct (In_ran_after k p runs [] Hin) as [[]|(run & Hrun & _ & ->)].
  pose proof (proj1 (Forall_forall _ _) Hans run Hrun) as [h' C].
  pose proof (in_map fst _ _ Hrun) as Hfst. rewrite Hargv in Hfst.
  apply in_map_iff in Hfst. destruct Hfst as (s & Hs & Hin').
  rewrite <- Hs in C.
  destruct (Henc s h' (snd run) Hin' C) as [-> ->]. reflexivity.
Qed.

Lemma syscalls_of_loop (loop : Trace) :
  loop = flat_map script_events (popens loop) ->
  syscalls loop = map SysExec (map fst (popens loop)).
Proof. intros H. rewrite H at 1. apply syscalls_loop. Qed.

(** All that [run_hooks] comes to. *)
Lemma run_hooks_trace (payload : json) (meta : Meta) (event : string)
  (h : Trace) :
  exists o t,
    run_hooks w cfg payload meta event h = (o, (h ++ t)%list)
    /\ hooks_outcome w cfg (dumps w payload) (mkstemp w h) event
         (check_permissions w (candidate_scripts w meta) h) o t.
Proof.
  set (tmpfile := mkstemp w h).
  destruct (check_permissions w (candidate_scripts w meta) h)
    as [|s0 rest0] eqn:S.
  - rewrite (run_hooks_nothing w cfg payload meta event h S).
    eexists; eexists. split; [reflexivity|].
    split; [discriminate|]. left. repeat split.
  - destruct (run_hooks_cases w cfg payload meta event h)
      as (loop & Hloop & Hans & Hcase).
    { rewrite S. discriminate. }
    fold tmpfile in Hcase. rewrite S in Hcase.
    pose proof (syscalls_of_loop loop Hloop) as Hsys.
    destruct Hcase as [[Hargv R]|(done & s & rest & Hs & Hargv & Hnone & R)].
    + set (ran := ran_after (popens loop) []) in R.
      destruct (give_info w cfg ran
                  ((h ++ [Mkstemp tmpfile;
                          WriteFile tmpfile (dumps w payload)])
                     ++ loop ++ [Remove tmpfile])%list)
        as [o h'] eqn:G.
      destruct (quiet_give_info w cfg ran _ _ _ G) as (t2 & E2 & S2 & P2).
      exists o,
        ([Mkstemp tmpfile; WriteFile tmpfile (dumps w payload)]
           ++ loop ++ [Remove tmpfile] ++ t2)%list.
      split; [rewrite R, E2, <- !app_assoc; reflexivity|].
      split.
      { intros code Ho.
        apply (give_info_not_Abort w cfg ran
                 ((h ++ [Mkstemp tmpfile;
                         WriteFile tmpfile (dumps w payload)])
                    ++ loop ++ [Remove tmpfile])%list code).
        rewrite G. exact Ho. }
      right; left. split; [discriminate|].
      cbn [app popens syscalls].
      rewrite popens_app, syscalls_app. cbn [app popens syscalls].
      rewrite P2, S2, app_nil_r, Hsys, Hargv, map_map.
      split; [reflexivity|]. split; [reflexivity|].
      intros Henc.
      destruct (config_get (RETURN_SCRIPTS_INFO cfg) false) eqn:Hinfo.
      * pose proof (dumps_ran_text tmpfile event (s0 :: rest0)
                      (popens loop) (Henc Hinfo) Hargv Hans) as D.
        fold ran in D.
        rewrite (give_info_Val w cfg ran _ _ Hinfo D) in G.
        inversion G. eauto.
      * rewrite (give_info_off w cfg ran _ Hinfo) in G.
        inversion G. eauto.
    + exists (Raise OSError),
        ([Mkstemp tmpfile; WriteFile tmpfile (dumps w payload)]
           ++ loop ++ [PopenError [s; tmpfile; event]])%list.
      split; [rewrite R, <- !app_assoc; reflexivity|].
      split; [discriminate|].
      right; right. exists done, s, rest.
      split; [exact Hs|].
      cbn [app popens syscalls].
      rewrite popens_app, syscalls_app. cbn [app popens syscalls].
      rewrite app_nil_r, Hsys, Hargv, map_map, map_app.
      repeat split. eauto.
Qed.


End Outcome.

(** ** Gathering the payload *)

Lemma getitem_json_get (v : json) (k : string) :
  getitem v k
  = match json_get v k with
    | Some x => Val x
    | None => Raise (match v with JObject _ => KeyError k | _ => TypeError end)
    end.
Proof. destruct v; reflexivity. Qed.

Lemma obind_Val {A B : Type} (o : Outcome A) (f : A -> Outcome B) (b : B) :
  obind o f = Val b <-> exists a, o = Val a /\ f a = Val b.
Proof.
  destruct o as [a|code|e]; simpl; split.
  - eauto.
  - intros (a' & E & H). inversion E; subst. exact H.
  - discriminate.
  - intros (a' & E & _). discriminate.
  - discriminate.
  - intros (a' & E & _). discriminate.
Qed.

Section Gather.

Variable w : World.
Variable req : Request.

(** What it takes for the [try] block of [index] to go through. *)
Lemma gather_Val (event : string) (payload : json) (meta : Meta) :
  gather w req event = Val (payload, meta) <->
  loads w (data req) = Some payload
  /\ repository_name payload = Some (meta_name meta)
  /\ (exists ref, json_get payload "ref" = Some (JStr ref)
                  /\ nth_error (split "/" ref) 2 = Some (meta_branch meta))
  /\ (if event =? "" then json_get payload "object_kind"
                          = Some (meta_event meta)
      else meta_event meta = JStr event).
Proof.
  unfold gather, repository_name. split.
  - intros H.
    apply obind_Val in H. destruct H as (p & Hloads & H).
    apply obind_Val in H. destruct H as (name & Hname & H).
    apply obind_Val in H. destruct H as (branch & Hbranch & H).
    apply obind_Val in H. destruct H as (ev & Hev & H).
    inversion H; subst p meta; clear H. simpl.
    apply obind_Val in Hname. destruct Hname as (r & Hr & Hname).
    apply obind_Val in Hbranch. destruct Hbranch as (parts & Hparts & Hb).
    apply obind_Val in Hparts. destruct Hparts as (rf & Hrf & Hparts).
    rewrite getitem_json_get in Hr, Hname, Hrf.
    destruct (loads w (data req)) as [p|]; [|discriminate].
    inversion Hloads; subst p.
    destruct (json_get payload "repository") as [r'|]; [|discriminate].
    inversion Hr; subst r'.
    destruct (json_get r "name") as [n|]; [|discriminate].
    inversion Hname; subst n.
    destruct (json_get payload "ref") as [rf'|]; [|discriminate].
    inversion Hrf; subst rf'.
    destruct rf; try discriminate. inversion Hparts; subst parts.
    unfold subscript in Hb.
    destruct (nth_error (split "/" s) 2) as [b|] eqn:Hnth; [|discriminate].
    inversion Hb; subst b.
    repeat split; [eauto|].
    destruct (event =? ""); simpl in Hev.
    + rewrite getitem_json_get in Hev.
      destruct (json_get payload "object_kind"); [|discriminate].
      congruence.
    + congruence.
  - intros (Hloads & Hname & (ref & Href & Hnth) & Hev).
    rewrite Hloads. simpl.
    rewrite !getitem_json_get.
    destruct (json_get payload "repository") as [r|]; [|discriminate].
    simpl. rewrite getitem_json_get, Hname. simpl.
    rewrite Href. simpl. unfold subscript. rewrite Hnth. simpl.
    destruct (event =? ""); simpl.
    + rewrite Hev. simpl. destruct meta; reflexivity.
    + rewrite <- Hev. simpl. destruct meta; reflexivity.
Qed.

(** Short of that, it raises. *)
Lemma gather_Raise (event : string) :
  (forall payload meta, gather w req event <> Val (payload, meta)) ->
  exists e, gather w req event = Raise e.
Proof.
  intros H. destruct (gather w req event) as [[payload meta]|code|e] eqn:G.
  - exfalso. exact (H payload meta eq_refl).
  - exfalso. exact (gather_not_Abort w req event code G).
  - eauto.
Qed.

End Gather.

(** C7. A request that is past validation and whose body [json.loads]
    rejects, or whose payload has no [repository.name], no [ref], or - with
    no event type in the headers - no [object_kind], is answered 400, and
    the exception goes to the log through [logging.exception]. *)
Theorem C7_bad_payload (w : World) (cfg : Config) (req : Request)
  (h0 h1 : Trace) :
  validate w cfg req h0 = (Val tt, h1) ->
  (loads w (data req) = None
   \/ exists payload,
        loads w (data req) = Some payload
        /\ (repository_name payload = None
            \/ json_get payload "ref" = None
            \/ (header_event req = ""
                /\ json_get payload "object_kind" = None))) ->
  exists e,
    index w cfg req h0
    = (Abort 400,
       (pinged req h1 ++ [LogException "invalid payload" e])%list)
    /\ http_status (fst (index w cfg req h0)) = 400.
Proof.
  intros Hvalid Hbad.
  destruct (gather_Raise w req (header_event req)) as [e G].
  { intros payload meta G. apply gather_Val in G.
    destruct G as (Hloads & Hname & (ref & Href & _) & Hev).
    destruct Hbad as [Hnone|(payload' & Hloads' & Hmissing)]; [congruence|].
    assert (payload' = payload) by congruence. subst payload'.
    destruct Hmissing as [Hn|[Hr|[He Hk]]]; try congruence.
    rewrite He in Hev. simpl in Hev. congruence. }
  exists e.
  rewrite (index_validated w cfg req h0 h1 Hvalid).
  rewrite (dispatch_Raise w cfg req _ e _ G). split; reflexivity.
Qed.

(** On the example deployment, a body that is no JSON. *)
Lemma C7_bad_payload_witness :
  exists e,
    index example_world default_config garbage_request []
    = (Abort 400,
       (pinged garbage_request [HttpGet "https://api.github.com/meta"]
          ++ [LogException "invalid payload" e])%list)
    /\ http_status (fst (index example_world default_config
                           garbage_request [])) = 400.
Proof.
  apply (C7_bad_payload example_world default_config garbage_request []
           [HttpGet "https://api.github.com/meta"]).
  - vm_compute. reflexivity.
  - left. vm_compute. reflexivity.
Defined.

Example split_refs_heads_main :
  split "/" "refs/heads/main" = ["refs"; "heads"; "main"].
Proof. reflexivity. Qed.

(** C9. For a request past validation whose payload has the text [ref]
    under the key [ref]: the branch of the meta is the piece of index 2 of
    [ref] split at the slashes - whenever the request is accepted, and it
    is accepted with that branch as soon as the name and the event are
    there; for [refs/heads/main] it is [main]; and a [ref] of fewer than
    three pieces makes the derivation raise, which is answered 400. *)
Theorem C9_branch (w : World) (cfg : Config) (req : Request)
  (h0 h1 : Trace) (payload : json) (ref : string) :
  validate w cfg req h0 = (Val tt, h1) ->
  loads w (data req) = Some payload ->
  json_get payload "ref" = Some (JStr ref) ->
  (forall event payload' meta h2,
      accept w cfg req h0 = (Val (event, (payload', meta)), h2) ->
      nth_error (split "/" ref) 2 = Some (meta_branch meta))
  /\ (forall name ev b,
         repository_name payload = Some name ->
         (if header_event req =? ""
          then json_get payload "object_kind" = Some ev
          else ev = JStr (header_event req)) ->
         nth_error (split "/" ref) 2 = Some b ->
         accept w cfg req h0
         = (Val (header_event req,
                 (payload, {| meta_name := name; meta_branch := b;
                              meta_event := ev |})),
            pinged req h1))
  /\ (ref = "refs/heads/main" ->
      forall event payload' meta h2,
        accept w cfg req h0 = (Val (event, (payload', meta)), h2) ->
        meta_branch meta = "main")
  /\ ((List.length (split "/" ref) < 3)%nat ->
      exists e,
        index w cfg req h0
        = (Abort 400,
           (pinged req h1 ++ [LogException "invalid payload" e])%list)).
Proof.
  intros Hvalid Hloads Href.
  assert (forall event payload' meta h2,
             accept w cfg req h0 = (Val (event, (payload', meta)), h2) ->
             nth_error (split "/" ref) 2 = Some (meta_branch meta)) as Hidx.
  { intros event payload' meta h2 Hacc.
    apply accept_Val in Hacc. destruct Hacc as (hv & _ & _ & G & _).
    apply gather_Val in G.
    destruct G as (Hloads' & _ & (ref' & Href' & Hnth) & _).
    congruence. }
  repeat split.
  - exact Hidx.
  - intros name ev b Hname Hev Hnth.
    apply accept_Val. exists h1. repeat split; trivial.
    apply gather_Val. simpl. repeat split; eauto.
  - intros -> event payload' meta h2 Hacc.
    specialize (Hidx _ _ _ _ Hacc). simpl in Hidx. congruence.
  - intros Hshort.
    destruct (gather_Raise w req (header_event req)) as [e G].
    { intros payload' meta G. apply gather_Val in G.
      destruct G as (Hloads' & _ & (ref' & Href' & Hnth) & _).
      assert (ref' = ref) by congruence. subst ref'.
      assert (nth_error (split "/" ref) 2 <> None) as Hsome by congruence.
      apply nth_error_Some in Hsome. lia. }
    exists e.
    rewrite (index_validated w cfg req h0 h1 Hvalid).
    exact (dispatch_Raise w cfg req _ e _ G).
Qed.

(** On the example deployment, a push of [refs/heads/main] is accepted
    with the branch [main]. *)
Lemma C9_branch_witness :
  accept example_world default_config push_request []
  = (Val ("push",
          (push_payload,
           {| meta_name := JStr "repo"; meta_branch := "main";
              meta_event := JStr "push" |})),
     [HttpGet "https://api.github.com/meta"]).
Proof.
  refine (proj1 (proj2 (C9_branch example_world default_config push_request
                          [] [HttpGet "https://api.github.com/meta"]
                          push_payload "refs/heads/main" _ _ _))
            (JStr "repo") (JStr "push") "main" _ _ _).
  - vm_compute. reflexivity.
  - vm_compute. reflexivity.
  - reflexivity.
  - reflexivity.
  - reflexivity.
  - reflexivity.
Defined.



(** ** The keys of [ran] *)






(** ** An accepted request *)

Section Accepted.

Variable w : World.
Variables (cfg : Config) (req : Request).
Variables (h0 h1 : Trace) (event : string) (payload : json) (meta : Meta).

Hypothesis accepted :
  accept w cfg req h0 = (Val (event, (payload, meta)), h1).

(** All that an accepted request comes to. *)
Lemma accepted_trace :
  exists o t,
    index w cfg req h0 = (o, (h0 ++ t)%list)
    /\ hooks_outcome w cfg (dumps w payload) (mkstemp w h1) event
         (check_permissions w (candidate_scripts w meta) h1) o t.
Proof.
  destruct (quiet_accept w cfg req _ _ _ accepted) as (t1 & E1 & S1 & P1).
  destruct (run_hooks_trace w cfg payload meta event h1)
    as (o & t & R & Hout).
  exists o, (t1 ++ t)%list.
  rewrite (index_accepted w cfg req h0 h1 event payload meta accepted).
  split; [rewrite R, E1, app_assoc; reflexivity|].
  unfold hooks_outcome in *.
  rewrite popens_app, syscalls_app, S1, P1. exact Hout.
Qed.


Lemma accepted_event : event = header_event req.
Proof.
  apply accept_Val in accepted. destruct accepted as (hv & _ & E & _).
  exact E.
Qed.


End Accepted.





(** ** The arguments of a hook *)



(** C5, where [index] departs from it. On the example deployment a push
    that carries no event header is accepted with the event [push] of its
    [object_kind], which selects its hooks; the hooks are run with the
    empty string of the headers for their second argument, not with the
    event derived for the request. *)
Theorem C5_hooks_told_empty_event :
  accept example_world default_config gitlab_request []
  = (Val ("", (gitlab_payload,
               {| meta_name := JStr "repo"; meta_branch := "main";
                  meta_event := JStr "push" |})),
     [HttpGet "https://api.github.com/meta"])
  /\ map fst (popens (snd (index example_world default_config
                             gitlab_request [])))
     = [["/srv/webhooks/hooks/push-repo-main"; "/tmp/tmp1"; ""];
        ["/srv/webhooks/hooks/push"; "/tmp/tmp1"; ""];
        ["/srv/webhooks/hooks/all"; "/tmp/tmp1"; ""]]
  /\ ~ hooks_get_derived_event example_world default_config
         gitlab_request [].
Proof.
  split; [vm_compute; reflexivity|].
  split; [vm_compute; reflexivity|].
  intros H.
  destruct (H "" gitlab_payload
              {| meta_name := JStr "repo"; meta_branch := "main";
                 meta_event := JStr "push" |}
              [HttpGet "https://api.github.com/meta"]
              (fst (index example_world default_config gitlab_request []))
              (snd (index example_world default_config gitlab_request []))
              ltac:(vm_compute; reflexivity)
              ltac:(vm_compute; reflexivity)
              ["/srv/webhooks/hooks/push"; "/tmp/tmp1"; ""]
              {| returncode := 0; stdout := "ok"; stderr := "" |}
              ltac:(vm_compute; tauto)) as [s E].
  vm_compute in E. discriminate.
Qed.

(** ** The result mapping *)




(** ** The candidate scripts *)




Section Candidates.

Variable w : World.







End Candidates.

(** C3, where [index] departs from it. On the example deployment a push
    whose event type is [/bin/echo] is accepted; [os.path.join] drops the
    hooks directory in front of an absolute name, so that three of the four
    candidates lie outside the hooks directory; [/bin/echo] is a file the
    process may execute, it is selected, and it is run. *)
Theorem C3_absolute_event_escapes_hooks :
  let meta := {| meta_name := JStr "repo"; meta_branch := "main";
                 meta_event := JStr "/bin/echo" |} in
  accept example_world default_config absolute_event_request []
  = (Val ("/bin/echo", (push_payload, meta)),
     [HttpGet "https://api.github.com/meta"])
  /\ hooks example_world = "/srv/webhooks/hooks"
  /\ candidate_scripts example_world meta
     = ["/bin/echo-repo-main"; "/bin/echo-repo"; "/bin/echo";
        "/srv/webhooks/hooks/all"]
  /\ map (inside (hooks example_world)) (candidate_scripts example_world meta)
     = [false; false; false; true]
  /\ syscalls (snd (index example_world default_config
                      absolute_event_request []))
     = [SysMkstemp "/tmp/tmp1";
        SysWrite "/tmp/tmp1" (json_text push_payload);
        SysExec ["/bin/echo"; "/tmp/tmp1"; "/bin/echo"];
        SysExec ["/srv/webhooks/hooks/all"; "/tmp/tmp1"; "/bin/echo"];
        SysRemove "/tmp/tmp1"].
Proof. vm_compute. repeat split. Qed.

(** * Further properties of [index] *)

(** ** The checks, at their edges *)

(** [index] on a method that is not POST, whichever it is. *)
Lemma index_not_POST (w : World) (cfg : Config) (req : Request)
  (h0 : Trace) :
  method req <> "POST" ->
  index w cfg req h0
  = (Abort 501,
     (h0 ++ [Log ERROR "Someone is performing GET over /"])%list).
Proof.
  intros H. apply String.eqb_neq in H.
  unfold index. apply bind_Abort.
  unfold only_post. rewrite H. reflexivity.
Qed.

(** X1. Of the requests that are no POST, the route lets GET and HEAD
    through to [index]: they are answered 501 after one error record in
    the log, and nothing else happens - no request to api.github.com, no
    file, no child - whatever the configuration, the sender, the headers
    and the body.  A request of any other method does not reach [index]:
    Flask answers OPTIONS itself and PUT, DELETE, PATCH and the like with
    405, and the log has no record of them.  A POST goes to [index]. *)
Theorem get_and_head_are_501 (w : World) (cfg : Config) (req : Request)
  (h0 : Trace) :
  (method req = "GET" \/ method req = "HEAD" ->
   application w cfg req h0 = index w cfg req h0
   /\ index w cfg req h0
      = (Abort 501,
         (h0 ++ [Log ERROR "Someone is performing GET over /"])%list))
  /\ (method req = "POST" ->
      application w cfg req h0 = index w cfg req h0)
  /\ (method req = "OPTIONS" -> application w cfg req h0 = (Val "", h0))
  /\ (~ In (method req) ["GET"; "HEAD"; "POST"; "OPTIONS"] ->
      application w cfg req h0 = (Abort 405, h0)).
Proof.
  unfold application, route_methods. cbn [existsb].
  split; [|split; [|split]].
  - intros [H|H]; rewrite H; (split; [reflexivity|]);
      apply index_not_POST; rewrite H; discriminate.
  - intros ->. reflexivity.
  - intros ->. reflexivity.
  - intros H.
    assert ((method req =? "HEAD") = false) as ->
      by (apply String.eqb_neq; intros E; apply H; rewrite E; simpl; tauto).
    assert ((method req =? "GET") = false) as ->
      by (apply String.eqb_neq; intros E; apply H; rewrite E; simpl; tauto).
    assert ((method req =? "POST") = false) as ->
      by (apply String.eqb_neq; intros E; apply H; rewrite E; simpl; tauto).
    assert ((method req =? "OPTIONS") = false) as ->
      by (apply String.eqb_neq; intros E; apply H; rewrite E; simpl; tauto).
    reflexivity.
Qed.

Lemma get_and_head_are_501_witness :
  application example_world default_config get_request []
  = index example_world default_config get_request []
  /\ index example_world default_config get_request []
     = (Abort 501, [Log ERROR "Someone is performing GET over /"])
  /\ application example_world default_config put_request []
     = (Abort 405, []).
Proof.
  destruct (get_and_head_are_501 example_world default_config
              get_request []) as (Hhead & _).
  destruct (get_and_head_are_501 example_world default_config
              put_request []) as (_ & _ & _ & Hput).
  destruct (Hhead (or_introl eq_refl)) as [Happ Hidx].
  split; [exact Happ|]. split; [exact Hidx|].
  apply Hput. simpl.
  intros [H|[H|[H|[H|[]]]]]; discriminate H.
Defined.

(** X2. With [GITHUB_IPS_ONLY] false, a POST goes on to the signature
    check with nothing asked of the network and the address of the sender
    never read: any address does, also one that is no IP address. *)
Theorem allowlist_off_reads_no_address (w : World) (cfg : Config)
  (req : Request) (h0 : Trace) :
  method req = "POST" ->
  GITHUB_IPS_ONLY cfg = Some false ->
  index w cfg req h0 = after_allowlist w cfg req h0.
Proof.
  intros Hpost Hoff. rewrite (index_POST w cfg req h0 Hpost).
  assert (allow_github_ips w cfg req h0 = (Val tt, h0)) as E
    by (unfold allow_github_ips; rewrite Hoff; reflexivity).
  exact (bind_Val _ _ _ _ _ E).
Qed.

Lemma allowlist_off_reads_no_address_witness :
  index example_world info_config named_sender_request []
  = after_allowlist example_world info_config named_sender_request [].
Proof.
  apply (allowlist_off_reads_no_address example_world info_config
           named_sender_request []); reflexivity.
Defined.

(** X3. With the allowlist on, a POST whose sender address [ip_address]
    rejects makes [index] raise ValueError, which nothing catches, before
    api.github.com is asked anything. *)
Theorem bad_sender_address_raises (w : World) (cfg : Config)
  (req : Request) (h0 : Trace) :
  method req = "POST" ->
  GITHUB_IPS_ONLY cfg <> Some false ->
  ip_address w (remote_addr req) = None ->
  index w cfg req h0 = (Raise ValueError, h0).
Proof.
  intros Hpost Hon Hsrc. rewrite (index_POST w cfg req h0 Hpost).
  apply bind_Raise. unfold allow_github_ips.
  assert (config_get (GITHUB_IPS_ONLY cfg) true = true) as ->.
  { destruct (GITHUB_IPS_ONLY cfg) as [[|]|]; simpl; congruence. }
  apply bind_Raise. unfold lift. rewrite Hsrc. reflexivity.
Qed.

Lemma bad_sender_address_raises_witness :
  index example_world default_config named_sender_request []
  = (Raise ValueError, []).
Proof.
  apply (bad_sender_address_raises example_world default_config
           named_sender_request []).
  - reflexivity.
  - discriminate.
  - reflexivity.
Defined.

(** The loop over the allowlist up to its first decisive entry. *)
Lemma in_whitelist_app (w : World) (src_ip : IPAddress)
  (before rest : list string) :
  Forall (fun s => exists n, ip_network w s = Some n
                             /\ ip_in src_ip n = false) before ->
  in_whitelist w src_ip (before ++ rest) = in_whitelist w src_ip rest.
Proof.
  induction 1 as [|s before (n & Hn & Hout) _ IH]; simpl; [reflexivity|].
  rewrite Hn. simpl. rewrite Hout. exact IH.
Qed.

(** X4. The loop over the allowlist stops at the first network that holds
    the sender: what the list has after it is never parsed, so the request
    goes on to the signature check even if a later entry is no network.
    An entry that is no network and comes before any network that holds
    the sender makes [index] raise ValueError. *)
Theorem allowlist_stops_at_first_match (w : World) (cfg : Config)
  (req : Request) (h0 : Trace) (src_ip : IPAddress)
  (before : list string) (entry : string) (after : list string) :
  method req = "POST" ->
  GITHUB_IPS_ONLY cfg <> Some false ->
  ip_address w (remote_addr req) = Some src_ip ->
  let h1 := (h0 ++ [HttpGet "https://api.github.com/meta"])%list in
  github_meta_hooks w h1 = (before ++ entry :: after)%list ->
  Forall (fun s => exists n, ip_network w s = Some n
                             /\ ip_in src_ip n = false) before ->
  ((exists n, ip_network w entry = Some n /\ ip_in src_ip n = true) ->
   index w cfg req h0 = after_allowlist w cfg req h1)
  /\ (ip_network w entry = None ->
      index w cfg req h0 = (Raise ValueError, h1)).
Proof.
  intros Hpost Hon Hsrc h1 Hlist Hbefore.
  assert (config_get (GITHUB_IPS_ONLY cfg) true = true) as Hcfg.
  { destruct (GITHUB_IPS_ONLY cfg) as [[|]|]; simpl; congruence. }
  assert (allow_github_ips w cfg req h0
          = match in_whitelist w src_ip (entry :: after) with
            | Val true => (Val tt, h1)
            | Val false => (Abort 403, h1)
            | Abort code => (Abort code, h1)
            | Raise e => (Raise e, h1)
            end) as E.
  { unfold allow_github_ips. rewrite Hcfg.
    unfold bind, lift, emit, ask. rewrite Hsrc. cbn [must].
    fold h1. rewrite Hlist, (in_whitelist_app w src_ip _ _ Hbefore).
    destruct (in_whitelist w src_ip (entry :: after)) as [[|]|code|e];
      reflexivity. }
  rewrite (index_POST w cfg req h0 Hpost).
  split.
  - intros (n & Hn & Hin). simpl in E. rewrite Hn in E. simpl in E.
    rewrite Hin in E. exact (bind_Val _ _ _ _ _ E).
  - intros Hnone. simpl in E. rewrite Hnone in E. simpl in E.
    exact (bind_Raise _ _ _ _ _ E).
Qed.

Lemma allowlist_stops_at_first_match_witness :
  index stale_list_world default_config push_request []
  = after_allowlist stale_list_world default_config push_request
      [HttpGet "https://api.github.com/meta"].
Proof.
  refine (proj1 (allowlist_stops_at_first_match stale_list_world
                   default_config push_request []
                   {| ip_version := 4; ip_int := 3223256081 |}
                   [] "192.30.252.0/22" ["hooks.example.org"]
                   _ _ _ _ _) _).
  - reflexivity.
  - discriminate.
  - reflexivity.
  - reflexivity.
  - constructor.
  - eexists. split; reflexivity.
Defined.

(** X5. With no secret configured - the key absent or the empty string -
    the signature header is never read: a POST past the allowlist goes on
    to the event, whatever its X-Hub-Signature says or lacks. *)
Theorem no_secret_reads_no_signature (w : World) (cfg : Config)
  (req : Request) (h0 h1 : Trace) :
  method req = "POST" ->
  allow_github_ips w cfg req h0 = (Val tt, h1) ->
  ENFORCE_SECRET cfg = None \/ ENFORCE_SECRET cfg = Some "" ->
  index w cfg req h0 = after_validation w cfg req h1.
Proof.
  intros Hpost Hallow Hoff. rewrite (index_POST w cfg req h0 Hpost).
  rewrite (bind_Val _ _ _ _ _ Hallow). unfold after_allowlist.
  assert (enforce_secret cfg req h1 = (Val tt, h1)) as E
    by (unfold enforce_secret; destruct Hoff as [-> | ->]; reflexivity).
  exact (bind_Val _ _ _ _ _ E).
Qed.

Lemma no_secret_reads_no_signature_witness :
  index example_world default_config forged_request []
  = after_validation example_world default_config forged_request
      [HttpGet "https://api.github.com/meta"].
Proof.
  apply (no_secret_reads_no_signature example_world default_config
           forged_request []).
  - reflexivity.
  - vm_compute. reflexivity.
  - left. reflexivity.
Defined.

(** X6. With a non-empty secret configured, a signature header that does
    not split at [=] into exactly two pieces - none or several [=] - makes
    [index] raise ValueError at the unpacking, which nothing catches; the
    algorithm is not looked at before, so a bare [md5] is no 501. *)
Theorem signature_without_two_parts_raises (w : World) (cfg : Config)
  (req : Request) (h0 h1 : Trace) (secret header : string) :
  method req = "POST" ->
  allow_github_ips w cfg req h0 = (Val tt, h1) ->
  ENFORCE_SECRET cfg = Some secret -> secret <> "" ->
  headers req "X-Hub-Signature" = Some header ->
  List.length (split "=" header) <> 2%nat ->
  index w cfg req h0 = (Raise ValueError, h1).
Proof.
  intros Hpost Hallow Hcfg Hsecret Hheader Hparts.
  rewrite (index_POST w cfg req h0 Hpost).
  rewrite (bind_Val _ _ _ _ _ Hallow). unfold after_allowlist.
  apply bind_Raise. unfold enforce_secret. rewrite Hcfg.
  unfold config_get. apply String.eqb_neq in Hsecret. rewrite Hsecret.
  unfold bind, lift. rewrite Hheader. cbn [must negb].
  destruct (split "=" header) as [|a [|b [|c l]]]; try reflexivity.
  exfalso. apply Hparts. reflexivity.
Qed.

Lemma signature_without_two_parts_raises_witness :
  index example_world secret_config bare_signature_request []
  = (Raise ValueError, [HttpGet "https://api.github.com/meta"]).
Proof.
  apply (signature_without_two_parts_raises example_world secret_config
           bare_signature_request [] _ "s3cret" "sha1").
  - reflexivity.
  - vm_compute. reflexivity.
  - reflexivity.
  - discriminate.
  - reflexivity.
  - vm_compute. discriminate.
Defined.

(** ** What an answer implies *)

Lemma split_one_inv (c : ascii) (s b : string) : split c s = [b] -> s = b.
Proof.
  revert b. induction s as [|x s IH]; simpl; intros b H.
  - congruence.
  - destruct (Ascii.eqb x c).
    + inversion H as [[Hb Hs]]. exfalso. exact (split_not_nil c s Hs).
    + pose proof (split_not_nil c s) as Hnn.
      destruct (split c s) as [|x0 xs]; [congruence|].
      inversion H as [[Hb Hxs]]. rewrite (IH x0); [reflexivity|].
      rewrite Hxs. reflexivity.
Qed.

(** Two pieces come from one separator between them. *)
Lemma split_two_inv (c : ascii) (s a b : string) :
  split c s = [a; b] -> s = a ++ String c b.
Proof.
  revert a. induction s as [|x s IH]; simpl; intros a H.
  - discriminate.
  - destruct (Ascii.eqb x c) eqn:Hx.
    + apply Ascii.eqb_eq in Hx. subst x. inversion H as [[Ha Hs]].
      rewrite (split_one_inv c s b Hs). reflexivity.
    + destruct (split c s) as [|x0 xs].
      * discriminate.
      * inversion H as [[Ha Hxs]]. rewrite (IH x0); [reflexivity|].
        rewrite Hxs. reflexivity.
Qed.

(** The signature check lets through what is signed, and nothing else. *)
Lemma enforce_secret_Val (cfg : Config) (req : Request) (h h' : Trace)
  (secret : string) :
  ENFORCE_SECRET cfg = Some secret -> secret <> "" ->
  enforce_secret cfg req h = (Val tt, h') ->
  headers req "X-Hub-Signature"
  = Some ("sha1=" ++ hmac_sha1_hexdigest secret (data req)).
Proof.
  intros Hcfg Hsecret. unfold enforce_secret. rewrite Hcfg.
  unfold config_get. apply String.eqb_neq in Hsecret. rewrite Hsecret.
  unfold bind, lift. cbn [negb].
  destruct (headers req "X-Hub-Signature") as [header|]; cbn [must];
    [|discriminate].
  destruct (split "=" header) as [|a [|b [|c l]]] eqn:E; try discriminate.
  destruct (a =? "sha1") eqn:Ha; cbn [negb]; [|discriminate].
  destruct (is_ascii b); cbn [negb]; [|discriminate].
  destruct (hmac_sha1_hexdigest secret (data req) =? b) eqn:Hb;
    cbn [negb]; [|discriminate].
  intros _. apply String.eqb_eq in Ha, Hb. subst a b.
  rewrite (split_two_inv _ _ _ _ E). reflexivity.
Qed.

Lemma in_whitelist_true (w : World) (src_ip : IPAddress)
  (whitelist : list string) :
  in_whitelist w src_ip whitelist = Val true ->
  exists entry n,
    In entry whitelist /\ ip_network w entry = Some n
    /\ ip_in src_ip n = true.
Proof.
  induction whitelist as [|s l IH]; simpl; [discriminate|].
  destruct (ip_network w s) as [n|] eqn:Hn; simpl; [|discriminate].
  destruct (ip_in src_ip n) eqn:Hin.
  - intros _. exists s, n. repeat split; trivial. now left.
  - intros H. destruct (IH H) as (entry & n' & Hentry & Hn' & Hin').
    exists entry, n'. repeat split; trivial. now right.
Qed.

(** The allowlist lets through a sender of one of the fetched networks,
    and nobody else. *)
Lemma allow_github_ips_Val (w : World) (cfg : Config) (req : Request)
  (h h' : Trace) :
  GITHUB_IPS_ONLY cfg <> Some false ->
  allow_github_ips w cfg req h = (Val tt, h') ->
  exists src_ip entry n,
    ip_address w (remote_addr req) = Some src_ip
    /\ In entry (github_meta_hooks w
                   (h ++ [HttpGet "https://api.github.com/meta"])%list)
    /\ ip_network w entry = Some n
    /\ ip_in src_ip n = true.
Proof.
  intros Hon. unfold allow_github_ips.
  assert (config_get (GITHUB_IPS_ONLY cfg) true = true) as ->.
  { destruct (GITHUB_IPS_ONLY cfg) as [[|]|]; simpl; congruence. }
  unfold bind, lift, emit, ask.
  destruct (ip_address w (remote_addr req)) as [src_ip|]; cbn [must];
    [|discriminate].
  destruct (in_whitelist w src_ip _) as [[|]|code|e] eqn:E;
    try discriminate.
  intros _. destruct (in_whitelist_true w src_ip _ E) as (entry & n & H).
  exists src_ip, entry, n. split; [reflexivity|exact H].
Qed.

Section Answers.

Variable w : World.
Variables (cfg : Config) (req : Request).

Lemma validate_Val (h0 h1 : Trace) :
  validate w cfg req h0 = (Val tt, h1) ->
  method req = "POST"
  /\ exists ha,
       allow_github_ips w cfg req h0 = (Val tt, ha)
       /\ enforce_secret cfg req ha = (Val tt, h1).
Proof.
  unfold validate, only_post.
  destruct (method req =? "POST") eqn:Hm; cbn [negb].
  - apply String.eqb_eq in Hm. unfold bind at 1. unfold ret at 1.
    unfold bind.
    destruct (allow_github_ips w cfg req h0) as [[[]|code|e] ha];
      try discriminate.
    intros H. split; [exact Hm|]. exists ha. split; [reflexivity|exact H].
  - unfold bind, emit, abort. discriminate.
Qed.

(** A request that is answered 200 was accepted. *)
Lemma index_Val (h0 h' : Trace) (body : string) :
  index w cfg req h0 = (Val body, h') ->
  exists event payload meta h1,
    accept w cfg req h0 = (Val (event, (payload, meta)), h1).
Proof.
  rewrite index_accept. unfold bind.
  destruct (accept w cfg req h0) as [[[event [payload meta]]|code|e] h1];
    try discriminate.
  intros _. exists event, payload, meta, h1. reflexivity.
Qed.

(** A request that is not accepted is answered by the checks or by
    "Gather data": with no body, no call to the file system and no
    child. *)
Lemma index_rejected (h0 h1 : Trace) (o : Outcome (string * (json * Meta))) :
  accept w cfg req h0 = (o, h1) ->
  (forall x, o <> Val x) ->
  exists o' t,
    index w cfg req h0 = (o', (h0 ++ t)%list)
    /\ (forall body, o' <> Val body)
    /\ (forall code, o' = Abort code <-> o = Abort code)
    /\ syscalls t = [] /\ popens t = [].
Proof.
  intros Hacc Hrej.
  destruct (quiet_accept w cfg req _ _ _ Hacc) as (t & -> & S & P).
  rewrite index_accept.
  destruct o as [x|code|e].
  - exfalso. exact (Hrej x eq_refl).
  - exists (Abort code), t. rewrite (bind_Abort _ _ _ _ _ Hacc).
    repeat split; try assumption; try discriminate;
      intros H; inversion H; reflexivity.
  - exists (Raise e), t. rewrite (bind_Raise _ _ _ _ _ Hacc).
    repeat split; try assumption; try discriminate.
Qed.

Lemma index_answered (h0 : Trace) (o : Outcome string) (t : Trace) :
  index w cfg req h0 = (o, (h0 ++ t)%list) ->
  (exists body, o = Val body) \/ syscalls t <> [] ->
  exists event payload meta h1,
    accept w cfg req h0 = (Val (event, (payload, meta)), h1).
Proof.
  intros E Hans.
  destruct (accept w cfg req h0) as [oa h1] eqn:Hacc.
  destruct oa as [[event [payload meta]]|code|e]; [eauto 6| |].
  - destruct (index_rejected h0 h1 _ Hacc) as (o' & t' & E' & Hb & _ & S & _);
      [discriminate|].
    rewrite E in E'. inversion E' as [[Ho Ht]]. subst o'.
    apply app_inv_head in Ht. subst t'. exfalso.
    destruct Hans as [[body ->]|Hsys]; [exact (Hb body eq_refl)|].
    exact (Hsys S).
  - destruct (index_rejected h0 h1 _ Hacc) as (o' & t' & E' & Hb & _ & S & _);
      [discriminate|].
    rewrite E in E'. inversion E' as [[Ho Ht]]. subst o'.
    apply app_inv_head in Ht. subst t'. exfalso.
    destruct Hans as [[body ->]|Hsys]; [exact (Hb body eq_refl)|].
    exact (Hsys S).
Qed.

End Answers.

(** X7. With a non-empty secret configured, [index] answers 200, makes a
    file or runs a child only for a request whose X-Hub-Signature header is
    [sha1=] followed by the hex digest of the HMAC-SHA1 of its raw body
    under the secret. *)
Theorem hooks_need_the_signature (w : World) (cfg : Config) (req : Request)
  (h0 : Trace) (secret : string) (o : Outcome string) (t : Trace) :
  ENFORCE_SECRET cfg = Some secret -> secret <> "" ->
  index w cfg req h0 = (o, (h0 ++ t)%list) ->
  (exists body, o = Val body) \/ syscalls t <> [] ->
  headers req "X-Hub-Signature"
  = Some ("sha1=" ++ hmac_sha1_hexdigest secret (data req)).
Proof.
  intros Hcfg Hsecret E Hans.
  destruct (index_answered w cfg req h0 o t E Hans)
    as (event & payload & meta & h1 & Hacc).
  apply accept_Val in Hacc. destruct Hacc as (hv & Hv & _).
  apply validate_Val in Hv. destruct Hv as (_ & ha & _ & Hs).
  exact (enforce_secret_Val cfg req ha hv secret Hcfg Hsecret Hs).
Qed.

Lemma hooks_need_the_signature_witness :
  headers signed_request "X-Hub-Signature"
  = Some ("sha1=" ++ hmac_sha1_hexdigest "s3cret" (data signed_request)).
Proof.
  refine (hooks_need_the_signature example_world secret_config
            signed_request [] "s3cret"
            (fst (index example_world secret_config signed_request []))
            (snd (index example_world secret_config signed_request []))
            _ _ _ _).
  - reflexivity.
  - discriminate.
  - vm_compute. reflexivity.
  - left. vm_compute. eexists. reflexivity.
Defined.

(** X8. With the allowlist on, [index] answers 200, makes a file or runs a
    child only for a request whose sender address parses and lies in a
    network that parses from an entry of the list fetched for this
    request. *)
Theorem hooks_need_a_listed_sender (w : World) (cfg : Config)
  (req : Request) (h0 : Trace) (o : Outcome string) (t : Trace) :
  GITHUB_IPS_ONLY cfg <> Some false ->
  index w cfg req h0 = (o, (h0 ++ t)%list) ->
  (exists body, o = Val body) \/ syscalls t <> [] ->
  exists src_ip entry n,
    ip_address w (remote_addr req) = Some src_ip
    /\ In entry (github_meta_hooks w
                   (h0 ++ [HttpGet "https://api.github.com/meta"])%list)
    /\ ip_network w entry = Some n
    /\ ip_in src_ip n = true.
Proof.
  intros Hon E Hans.
  destruct (index_answered w cfg req h0 o t E Hans)
    as (event & payload & meta & h1 & Hacc).
  apply accept_Val in Hacc. destruct Hacc as (hv & Hv & _).
  apply validate_Val in Hv. destruct Hv as (_ & ha & Ha & _).
  exact (allow_github_ips_Val w cfg req h0 ha Hon Ha).
Qed.

Lemma hooks_need_a_listed_sender_witness :
  exists src_ip entry n,
    ipv4_address "192.30.252.17" = Some src_ip
    /\ In entry ["192.30.252.0/22"; "185.199.108.0/22"]
    /\ ipv4_network entry = Some n
    /\ ip_in src_ip n = true.
Proof.
  refine (hooks_need_a_listed_sender example_world default_config
            push_request []
            (fst (index example_world default_config push_request []))
            (snd (index example_world default_config push_request []))
            _ _ _).
  - discriminate.
  - vm_compute. reflexivity.
  - left. vm_compute. eexists. reflexivity.
Defined.

(** X9. A request that a check or the payload refuses - whatever [abort]
    answers it: 501, 403 or 400 - has made no file and run no child. *)
Theorem aborts_touch_nothing (w : World) (cfg : Config) (req : Request)
  (h0 : Trace) (code : Z) (t : Trace) :
  index w cfg req h0 = (Abort code, (h0 ++ t)%list) ->
  syscalls t = [] /\ popens t = [].
Proof.
  intros E.
  destruct (accept w cfg req h0) as [oa h1] eqn:Hacc.
  destruct oa as [[event [payload meta]]|code'|e].
  - destruct (accepted_trace w cfg req h0 h1 event payload meta Hacc)
      as (o & t' & E' & Hnot & _).
    rewrite E in E'. inversion E' as [[Ho Ht]].
    exfalso. exact (Hnot code (eq_sym Ho)).
  - destruct (index_rejected w cfg req h0 h1 _ Hacc)
      as (o' & t' & E' & _ & _ & S & P); [discriminate|].
    rewrite E in E'. inversion E' as [[Ho Ht]].
    apply app_inv_head in Ht. subst t'. split; assumption.
  - destruct (index_rejected w cfg req h0 h1 _ Hacc)
      as (o' & t' & E' & _ & _ & S & P); [discriminate|].
    rewrite E in E'. inversion E' as [[Ho Ht]].
    apply app_inv_head in Ht. subst t'. split; assumption.
Qed.

Lemma aborts_touch_nothing_witness :
  syscalls [HttpGet "https://api.github.com/meta";
            LogException "invalid payload" ValueError] = []
  /\ popens [HttpGet "https://api.github.com/meta";
             LogException "invalid payload" ValueError] = [].
Proof.
  refine (aborts_touch_nothing example_world default_config garbage_request
            [] 400 _ _).
  vm_compute. reflexivity.
Defined.

(** ** Any request *)

Lemma check_permissions_length (w : World) (meta : Meta) (h : Trace) :
  (List.length (check_permissions w (candidate_scripts w meta) h) <= 4)%nat.
Proof.
  unfold check_permissions.
  exact (filter_length_le _ (candidate_scripts w meta)).
Qed.

(** X10. Whatever the request and whatever its hooks return, [index]
    either asks nothing of the file system and the process table, or
    selects between one and four scripts and asks for one temporary file,
    one write to it, and then
    - when every script starts: one child for each of them - given that
      file and the event type of the headers - and the removal of the
      file;
    - when one does not start: the children before it, the attempt, and
      no more - the file is not removed, and the request ends with
      OSError.
    No request runs more than four hooks, and the temporary file stays
    behind in that one case only. *)
Theorem system_calls_of_any_request (w : World) (cfg : Config)
  (req : Request) (h0 : Trace) :
  exists o t,
    index w cfg req h0 = (o, (h0 ++ t)%list)
    /\ (syscalls t = []
        \/ exists tmpfile content scripts,
             scripts <> [] /\ (List.length scripts <= 4)%nat
             /\ (syscalls t
                 = (SysMkstemp tmpfile :: SysWrite tmpfile content
                      :: map (fun s => SysExec [s; tmpfile; header_event req])
                           scripts
                      ++ [SysRemove tmpfile])%list
                 \/ exists done s rest,
                      scripts = (done ++ s :: rest)%list
                      /\ o = Raise OSError
                      /\ syscalls t
                         = (SysMkstemp tmpfile :: SysWrite tmpfile content
                              :: map (fun s => SysExec
                                                 [s; tmpfile; header_event req])
                                   (done ++ [s]))%list)).
Proof.
  destruct (accept w cfg req h0) as [oa h1] eqn:Hacc.
  destruct oa as [[event [payload meta]]|code|e].
  - destruct (accepted_trace w cfg req h0 h1 event payload meta Hacc)
      as (o & t & E & _ & Hcase).
    rewrite (accepted_event w cfg req h0 h1 event payload meta Hacc)
      in Hcase.
    exists o, t. split; [exact E|].
    pose proof (check_permissions_length w meta h1) as Hlen.
    destruct Hcase as [(_ & _ & Hsys & _)
                      |[(Hs & _ & Hsys & _)
                       |(done & s & rest & Hs & _ & Hsys & Ho & _)]].
    + now left.
    + right.
      exists (mkstemp w h1), (dumps w payload),
        (check_permissions w (candidate_scripts w meta) h1).
      split; [exact Hs|]. split; [exact Hlen|]. left. exact Hsys.
    + right.
      exists (mkstemp w h1), (dumps w payload),
        (check_permissions w (candidate_scripts w meta) h1).
      split; [rewrite Hs; destruct done; discriminate|].
      split; [exact Hlen|].
      right. exists done, s, rest. repeat split; assumption.
  - destruct (index_rejected w cfg req h0 h1 _ Hacc)
      as (o' & t' & E' & _ & _ & S & _); [discriminate|].
    exists o', t'. split; [exact E'|]. now left.
  - destruct (index_rejected w cfg req h0 h1 _ Hacc)
      as (o' & t' & E' & _ & _ & S & _); [discriminate|].
    exists o', t'. split; [exact E'|]. now left.
Qed.

(** X11. Unless [RETURN_SCRIPTS_INFO] is true, an answer is no 200 or a
    200 with an empty body: what the hooks returned or printed goes to no
    client. *)
Theorem body_is_empty_without_info (w : World) (cfg : Config)
  (req : Request) (h0 : Trace) :
  RETURN_SCRIPTS_INFO cfg <> Some true ->
  fst (index w cfg req h0) = Val ""
  \/ forall body, fst (index w cfg req h0) <> Val body.
Proof.
  intros Hoff.
  assert (config_get (RETURN_SCRIPTS_INFO cfg) false = false) as Hinfo.
  { destruct (RETURN_SCRIPTS_INFO cfg) as [[|]|]; simpl; congruence. }
  destruct (index w cfg req h0) as [[body|code|e] h'] eqn:E;
    [left|right; discriminate|right; discriminate].
  destruct (index_Val w cfg req h0 h' body E)
    as (event & payload & meta & h1 & Hacc).
  rewrite (index_accepted w cfg req h0 h1 event payload meta Hacc) in E.
  destruct (check_permissions w (candidate_scripts w meta) h1)
    as [|s rest] eqn:S.
  - rewrite (run_hooks_nothing w cfg payload meta event h1 S) in E.
    simpl. congruence.
  - destruct (run_hooks_cases w cfg payload meta event h1)
      as (loop & _ & _ & [[_ R]|(done & s' & rest' & _ & _ & _ & R)]).
    { rewrite S. discriminate. }
    + rewrite R, (give_info_off w cfg _ _ Hinfo) in E. simpl. congruence.
    + rewrite R in E. discriminate E.
Qed.

Lemma body_is_empty_without_info_witness :
  fst (index example_world default_config push_request []) = Val ""
  \/ forall body,
       fst (index example_world default_config push_request []) <> Val body.
Proof.
  apply (body_is_empty_without_info example_world default_config
           push_request []).
  discriminate.
Defined.

(** ** The payload, exactly *)

(** X12. Past validation the payload decides between 400 and the hooks:
    the answer is 400 exactly when the body does not parse to a payload
    that has [repository.name] (of any JSON type), a text under [ref] with
    at least three pieces between slashes, and - unless the headers give a
    non-empty event type - an [object_kind].  With an event type in the
    headers, [object_kind] is not asked for.  Such a payload is never
    refused: nothing but 400 is aborted with, and what is not 400 is 200
    or the 500 of an exception of the hooks. *)
Theorem payload_decides_400 (w : World) (cfg : Config)
  (req : Request) (h0 h1 : Trace) :
  validate w cfg req h0 = (Val tt, h1) ->
  let status := http_status (fst (index w cfg req h0)) in
  let well_formed :=
    exists payload,
      loads w (data req) = Some payload
      /\ (exists name, repository_name payload = Some name)
      /\ (exists ref branch,
             json_get payload "ref" = Some (JStr ref)
             /\ nth_error (split "/" ref) 2 = Some branch)
      /\ (header_event req <> ""
          \/ exists kind, json_get payload "object_kind" = Some kind) in
  (status = 400 <-> ~ well_formed)
  /\ (status <> 400 <-> well_formed)
  /\ (forall code, fst (index w cfg req h0) = Abort code -> code = 400)
  /\ (status = 200 \/ status = 400 \/ status = 500).
Proof.
  intros Hvalid status well_formed. unfold status.
  destruct (gather w req (header_event req)) as [[payload meta]|code|e]
    eqn:G.
  - assert (accept w cfg req h0
            = (Val (header_event req, (payload, meta)), pinged req h1))
      as Hacc
      by (apply accept_Val; exists h1; repeat split; assumption).
    destruct (accepted_trace w cfg req h0 _ _ payload meta Hacc)
      as (o & t & E & Hnot & _).
    rewrite E. cbn [fst].
    assert (well_formed) as Hwf.
    { apply gather_Val in G.
      destruct G as (Hloads & Hname & (ref & Href & Hnth) & Hev).
      exists payload. repeat split; eauto.
      destruct (header_event req =? "") eqn:He.
      + right. eauto.
      + left. now apply String.eqb_neq. }
    assert (http_status o = 200 \/ http_status o = 500) as Hst.
    { destruct o as [body|code|e]; simpl; [now left| |now right].
      exfalso. exact (Hnot code eq_refl). }
    split; [split; [intros H; lia|intros H; contradiction]|].
    split; [split; [intros _; exact Hwf|intros _; lia]|].
    split; [intros code Ho; exfalso; exact (Hnot code Ho)|].
    destruct Hst as [-> | ->]; auto.
  - exfalso. exact (gather_not_Abort w req _ code G).
  - rewrite (index_validated w cfg req h0 h1 Hvalid).
    rewrite (dispatch_Raise w cfg req _ e _ G). cbn [fst http_status].
    assert (~ well_formed) as Hnwf.
    { intros (payload & Hloads & (name & Hname)
              & (ref & branch & Href & Hnth) & Hev).
      assert (exists ev,
                 if header_event req =? ""
                 then json_get payload "object_kind" = Some ev
                 else ev = JStr (header_event req)) as (ev & Hev').
      { destruct (header_event req =? "") eqn:He.
        - destruct Hev as [Hne|[kind Hkind]]; [|eauto].
          apply String.eqb_eq in He. contradiction.
        - eauto. }
      assert (gather w req (header_event req)
              = Val (payload, {| meta_name := name; meta_branch := branch;
                                 meta_event := ev |})) as G'.
      { apply gather_Val. simpl. repeat split; eauto. }
      congruence. }
    split; [split; [intros _; exact Hnwf|reflexivity]|].
    split; [split; [intros H; contradiction|intros H; contradiction]|].
    split; [intros code Ho; inversion Ho; reflexivity|].
    right; left; reflexivity.
Qed.

Lemma payload_decides_400_witness :
  http_status (fst (index example_world default_config nameless_request []))
  = 200
  \/ http_status
       (fst (index example_world default_config nameless_request []))
     = 400
  \/ http_status
       (fst (index example_world default_config nameless_request []))
     = 500.
Proof.
  refine (proj2 (proj2 (proj2 (payload_decides_400 example_world
                                 default_config nameless_request []
                                 [HttpGet "https://api.github.com/meta"] _)))).
  vm_compute. reflexivity.
Defined.

(** X13. The exception that goes to the log with a 400 tells the first
    thing that went wrong, in the order in which [index] builds its meta:
    the body, then [repository] and [name], then [ref], then the event. *)
Theorem invalid_payload_names_its_cause (w : World) (cfg : Config)
  (req : Request) (h0 h1 : Trace) :
  validate w cfg req h0 = (Val tt, h1) ->
  let logged e :=
    index w cfg req h0
    = (Abort 400,
       (pinged req h1 ++ [LogException "invalid payload" e])%list) in
  (loads w (data req) = None -> logged ValueError)
  /\ (forall payload,
         loads w (data req) = Some payload ->
         (forall d, payload <> JObject d) -> logged TypeError)
  /\ (forall d,
         loads w (data req) = Some (JObject d) ->
         (assoc "repository" d = None -> logged (KeyError "repository"))
         /\ (forall r,
                assoc "repository" d = Some r ->
                (forall rd, r <> JObject rd) -> logged TypeError)
         /\ (forall rd,
                assoc "repository" d = Some (JObject rd) ->
                (assoc "name" rd = None -> logged (KeyError "name"))
                /\ (forall name,
                       assoc "name" rd = Some name ->
                       (assoc "ref" d = None -> logged (KeyError "ref"))
                       /\ (forall v,
                              assoc "ref" d = Some v ->
                              (forall s, v <> JStr s) ->
                              logged AttributeError)
                       /\ (forall s,
                              assoc "ref" d = Some (JStr s) ->
                              ((List.length (split "/" s) < 3)%nat ->
                               logged IndexError)
                              /\ ((3 <= List.length (split "/" s))%nat ->
                                  header_event req = "" ->
                                  assoc "object_kind" d = None ->
                                  logged (KeyError "object_kind")))))).
Proof.
  intros Hvalid logged. unfold logged.
  rewrite (index_validated w cfg req h0 h1 Hvalid).
  assert (forall e, gather w req (header_event req) = Raise e ->
                    dispatch w cfg req (header_event req) (pinged req h1)
                    = (Abort 400,
                       (pinged req h1
                          ++ [LogException "invalid payload" e])%list)) as D
    by (intros e; apply dispatch_Raise).
  unfold gather in D.
  split; [intros Hloads; apply D; rewrite Hloads; reflexivity|].
  split.
  { intros payload Hloads Hobj. apply D. rewrite Hloads. simpl.
    destruct payload; try reflexivity. exfalso. exact (Hobj _ eq_refl). }
  intros d Hloads. rewrite Hloads in D. simpl in D.
  split; [intros Hrepo; apply D; rewrite Hrepo; reflexivity|].
  split.
  { intros r Hrepo Hobj. apply D. rewrite Hrepo. simpl.
    destruct r; try reflexivity. exfalso. exact (Hobj _ eq_refl). }
  intros rd Hrepo. rewrite Hrepo in D. simpl in D.
  split; [intros Hname; apply D; rewrite Hname; reflexivity|].
  intros name Hname. rewrite Hname in D. simpl in D.
  split; [intros Href; apply D; rewrite Href; reflexivity|].
  split.
  { intros v Href Htext. apply D. rewrite Href. simpl.
    destruct v; try reflexivity. exfalso. exact (Htext _ eq_refl). }
  intros s Href. rewrite Href in D. simpl in D. unfold subscript in D.
  split.
  - intros Hshort. apply D.
    destruct (nth_error (split "/" s) 2) eqn:Hnth; [|reflexivity].
    assert (nth_error (split "/" s) 2 <> None) as Hsome by congruence.
    apply nth_error_Some in Hsome. lia.
  - intros Hlong Hev Hkind. apply D.
    destruct (nth_error (split "/" s) 2) eqn:Hnth.
    + simpl. rewrite Hev, Hkind. reflexivity.
    + apply nth_error_None in Hnth. lia.
Qed.

Lemma invalid_payload_names_its_cause_witness :
  index example_world default_config nameless_request []
  = (Abort 400,
     (pinged nameless_request [HttpGet "https://api.github.com/meta"]
        ++ [LogException "invalid payload" (KeyError "name")])%list).
Proof.
  destruct (invalid_payload_names_its_cause example_world default_config
              nameless_request [] [HttpGet "https://api.github.com/meta"])
    as (_ & _ & Hobject).
  - vm_compute. reflexivity.
  - destruct (Hobject [("ref", JStr "refs/heads/main");
                       ("repository", JObject [])])
      as (_ & _ & Hrepository).
    + vm_compute. reflexivity.
    + destruct (Hrepository []) as (Hname & _); [reflexivity|].
      exact (Hname eq_refl).
Defined.

(** ** What of a request is read *)

(** X14. Of a request [index] reads the method, the sender address, the
    body and three headers, and the X-Gitlab-Event header only when there
    is no X-GitHub-Event header: requests that agree on these are answered
    alike, with the same trace.  A GitHub event header - an empty one
    too - hides the GitLab one. *)
Theorem unread_headers_change_nothing (w : World) (cfg : Config)
  (req req' : Request) (h0 : Trace) :
  method req' = method req ->
  remote_addr req' = remote_addr req ->
  data req' = data req ->
  headers req' "X-Hub-Signature" = headers req "X-Hub-Signature" ->
  headers req' "X-GitHub-Event" = headers req "X-GitHub-Event" ->
  (headers req "X-GitHub-Event" = None ->
   headers req' "X-Gitlab-Event" = headers req "X-Gitlab-Event") ->
  index w cfg req' h0 = index w cfg req h0.
Proof.
  intros Hmethod Haddr Hdata Hsig Hgithub Hgitlab.
  assert (header_event req' = header_event req) as Hevent.
  { unfold header_event. rewrite Hgithub.
    destruct (headers req "X-GitHub-Event"); [reflexivity|].
    rewrite (Hgitlab eq_refl). reflexivity. }
  unfold index, only_post, allow_github_ips, enforce_secret,
    implement_ping, gather_data, gather.
  rewrite Hmethod, Haddr, Hdata, Hsig, Hevent. reflexivity.
Qed.

Lemma unread_headers_change_nothing_witness :
  index example_world default_config two_platform_request []
  = index example_world default_config push_request [].
Proof.
  apply (unread_headers_change_nothing example_world default_config
           push_request two_platform_request []); try reflexivity.
  discriminate.
Defined.

(** ** The candidates and the hooks, in general *)







(** ** When the hooks go wrong *)




